(** * Operador - Controle de Acordos: the pure core of [src/App.jsx]

    A shallow embedding of the helpers of [App.jsx] that decide how client
    rows are identified, imported, overlaid with payment promises,
    classified by due date and selected for bulk messaging, followed by the
    properties the specification states about them.

    Conventions.
    - A JavaScript string is the list of its UTF-16 code units ([N]).
    - A [Date] is its time value, an integer number of milliseconds since
      the epoch; [None] stands for an invalid date ([NaN]).
    - What the JavaScript platform and the XLSX library provide (Unicode
      case folding and normalisation, number printing, date parsing and
      printing, the local time zone, URI encoding) is gathered in the class
      [Host]; every definition is written against an arbitrary host.
    - React state is passed explicitly. *)

From Stdlib Require Import ZArith NArith List String Ascii Bool Lia DecimalString
  DecimalNat.
From stdpp Require Import base option list gmap.

Local Open Scope Z_scope.

(** ** Strings *)

Abbreviation jsstring := (list N).

(** The code units of an ASCII literal. *)
Definition lit (s : string) : jsstring :=
  List.map N_of_ascii (list_ascii_of_string s).

Definition str_eqb (a b : jsstring) : bool := bool_decide (a = b).

Definition is_empty (s : jsstring) : bool :=
  match s with [] => true | _ => false end.

(** [\d] *)
Definition isDigit (c : N) : bool := ((48 <=? c) && (c <=? 57))%N.

(** [\s], which is also what [trim] strips: WhiteSpace and LineTerminator. *)
Definition isWhite (c : N) : bool :=
  (existsb (N.eqb c)
     [9; 10; 11; 12; 13; 32; 160; 5760; 8232; 8233; 8239; 8287; 12288; 65279]
   || ((8192 <=? c) && (c <=? 8202)))%N.

(** [[a-z0-9 ]] *)
Definition isLowerAlnumSpace (c : N) : bool :=
  (((97 <=? c) && (c <=? 122)) || isDigit c || (c =? 32))%N.

(** The combining marks U+0300 to U+036F. *)
Definition isCombiningMark (c : N) : bool := ((768 <=? c) && (c <=? 879))%N.

Fixpoint trimStart (s : jsstring) : jsstring :=
  match s with
  | c :: s' => if isWhite c then trimStart s' else s
  | [] => []
  end.

Definition trimEnd (s : jsstring) : jsstring := rev (trimStart (rev s)).

Definition trim (s : jsstring) : jsstring := trimEnd (trimStart s).

Fixpoint startsWith (p s : jsstring) : bool :=
  match p, s with
  | [], _ => true
  | a :: p', b :: s' => (a =? b)%N && startsWith p' s'
  | _ :: _, [] => false
  end.

Fixpoint includes (s p : jsstring) : bool :=
  startsWith p s ||
  match s with
  | [] => false
  | _ :: s' => includes s' p
  end.

(** [s.replace(/\s+/g, ' ')]: every maximal run of white space becomes one
    space; [inRun] tells that the preceding code unit was white space. *)
Fixpoint collapseWhiteFrom (inRun : bool) (s : jsstring) : jsstring :=
  match s with
  | [] => []
  | c :: s' =>
      if isWhite c then
        if inRun then collapseWhiteFrom true s'
        else 32%N :: collapseWhiteFrom true s'
      else c :: collapseWhiteFrom false s'
  end.

Definition collapseWhite (s : jsstring) : jsstring := collapseWhiteFrom false s.

Definition join (sep : jsstring) (l : list jsstring) : jsstring :=
  match l with
  | [] => []
  | s :: l' => s ++ concat (List.map (fun x => sep ++ x) l')
  end.

(** ** The host platform *)

(** What [App.jsx] takes from the JavaScript runtime and from the XLSX
    library.  [getFullYear], [getMonth] and [getDate] read a valid time
    value in local time; [newDate y m d] is the time value of
    [new Date(y, m, d)], the local midnight that opens that calendar date;
    [dateParse s] is the time value of [new Date(s)], [None] when the date is
    invalid; [toISOString] is applied to valid dates only and
    [encodeURIComponent] to well-formed text, where they do not throw. *)
Class Host : Type := {
  toLowerCase : jsstring -> jsstring;
  normalizeNFD : jsstring -> jsstring;
  number : Type;
  numberToString : number -> jsstring;
  numberTruthy : number -> bool;
  parse_date_code : number -> option (Z * Z * Z);
  dateToString : option Z -> jsstring;
  dateParse : jsstring -> option Z;
  toISOString : Z -> jsstring;
  encodeURIComponent : jsstring -> jsstring;
  getFullYear : Z -> Z;
  getMonth : Z -> Z;
  getDate : Z -> Z;
  newDate : Z -> Z -> Z -> Z
}.

Definition MS_DAY : Z := 24 * 60 * 60 * 1000.

(** The one property of local time the classifier relies on: the midnight
    that opens the calendar date of an instant is not after that instant.
    The constructor reads a year from 0 to 99 as a year of the 1900s, so the
    property is about the other years. *)
Class ZoneLaws (H : Host) : Prop := {
  newDate_le : forall t,
    100 <= getFullYear t ->
    newDate (getFullYear t) (getMonth t) (getDate t) <= t
}.

(** Local time is [off] milliseconds ahead of UTC on the calendar date of
    [t]: that date is day [(t + off) / MS_DAY] of the shifted clock and
    opens at its midnight. *)
Definition atOffset `{Host} (off t : Z) : Prop :=
  newDate (getFullYear t) (getMonth t) (getDate t)
  = (t + off) / MS_DAY * MS_DAY - off.

(** ** Values *)

Inductive JsVal `{Host} : Type :=
  | VUndefined
  | VNull
  | VBool (b : bool)
  | VNum (x : number)
  | VStr (s : jsstring)
  | VDate (t : option Z).

Section Utils.
Context `{Host}.

Definition truthy (v : JsVal) : bool :=
  match v with
  | VUndefined | VNull => false
  | VBool b => b
  | VNum x => numberTruthy x
  | VStr s => negb (is_empty s)
  | VDate _ => true
  end.

(** [String(v)] *)
Definition ToString (v : JsVal) : jsstring :=
  match v with
  | VUndefined => lit "undefined"
  | VNull => lit "null"
  | VBool true => lit "true"
  | VBool false => lit "false"
  | VNum x => numberToString x
  | VStr s => s
  | VDate t => dateToString t
  end.

(** [v ?? ''] *)
Definition nullishOrEmpty (v : JsVal) : JsVal :=
  match v with
  | VUndefined | VNull => VStr []
  | _ => v
  end.

(** [v || ''] *)
Definition falsyOrEmpty (v : JsVal) : JsVal :=
  if truthy v then v else VStr [].

Definition norm (s : JsVal) : jsstring :=
  let s1 := trim (ToString (nullishOrEmpty s)) in
  let s2 := toLowerCase s1 in
  let s3 := normalizeNFD s2 in
  let s4 := List.filter (fun c => negb (isCombiningMark c)) s3 in
  let s5 := List.map (fun c => if isLowerAlnumSpace c then c else 32%N) s4 in
  let s6 := collapseWhite s5 in
  trim s6.

Definition onlyDigits (s : JsVal) : jsstring :=
  List.filter isDigit (ToString (falsyOrEmpty s)).

End Utils.

(** ** Client rows and promises *)

(** The objects that flow through the application: the output of [mapRow],
    a stored manual client, a row of the working set.  The text properties
    hold strings, as [mapRow] and [saveManualClient] write them; a property
    that an object may lack is an [option]. *)
Record Row `{Host} : Type := mkRow {
  _id : option jsstring;
  CPF : jsstring;
  Nome : jsstring;
  Valor : JsVal;
  VencimentoISO : jsstring;
  Telefone : jsstring;
  TipoNegociacao : jsstring;
  Status : jsstring;
  Obs : jsstring;
  PromessaISO : option jsstring;
  _source : option jsstring;
  createdAt : option jsstring
}.

Module Promise.
Record snapshot `{Host} : Type := mkSnapshot {
  Nome : jsstring;
  Telefone : jsstring;
  CPF : jsstring;
  Valor : JsVal
}.
Record payload `{Host} : Type := mkPayload {
  promiseISO : jsstring;
  updatedAt : jsstring;
  note : jsstring;
  snap : snapshot
}.
End Promise.

Section Identity.
Context `{Host}.

Definition keyForClientLike (r : Row) : jsstring :=
  let cpf := onlyDigits (VStr (CPF r)) in
  if negb (is_empty cpf) && (8 <=? length cpf)%nat then lit "cpf:" ++ cpf
  else
    let tel := onlyDigits (VStr (Telefone r)) in
    if negb (is_empty tel) && (10 <=? length tel)%nat then lit "tel:" ++ tel
    else [].

End Identity.

(** ** Spreadsheet helpers *)

Section Excel.
Context `{Host}.

Definition looksCpf (cell : JsVal) : bool :=
  let t := norm cell in
  str_eqb t (lit "cpf")
  || includes t (lit "cpf")
  || includes t (lit "cpf cnpj")
  || includes t (lit "cpf/cnpj")
  || includes t (lit "documento").

Definition looksNome (cell : JsVal) : bool :=
  let t := norm cell in
  str_eqb t (lit "nome") || includes t (lit "nome") || includes t (lit "cliente").

(** One turn of the inner loop of [findHeaderRow] on the flags
    [(cpfOk, nomeOk)]. *)
Definition scanCell (flags : bool * bool) (cell : JsVal) : bool * bool :=
  let '(cpfOk, nomeOk) := flags in
  let cpfOk := if negb cpfOk && looksCpf cell then true else cpfOk in
  let nomeOk := if negb nomeOk && looksNome cell then true else nomeOk in
  (cpfOk, nomeOk).

Definition hasCpfAndNome (row : list JsVal) : bool :=
  let '(cpfOk, nomeOk) := fold_left scanCell row (false, false) in
  cpfOk && nomeOk.

Definition filledCells (row : list JsVal) : nat :=
  length (List.filter
            (fun c => negb (str_eqb (trim (ToString (nullishOrEmpty c))) []))
            row).

Definition hasThreeFilled (row : list JsVal) : bool := (3 <=? filledCells row)%nat.

(** [for (let i = i0; i < i0 + n; i++) { if (test(aoa[i] || [])) return i; }] *)
Fixpoint scanRows (test : list JsVal -> bool) (aoa : list (list JsVal))
    (i n : nat) : option nat :=
  match n with
  | O => None
  | S n' =>
      if test (default [] (aoa !! i)) then Some i
      else scanRows test aoa (S i) n'
  end.

Definition findHeaderRow (aoa : list (list JsVal)) : nat :=
  let maxScan := Nat.min 25 (length aoa) in
  match scanRows hasCpfAndNome aoa 0 maxScan with
  | Some i => i
  | None =>
      match scanRows hasThreeFilled aoa 0 maxScan with
      | Some i => i
      | None => O
      end
  end.

Definition digitVal (c : N) : Z := Z.of_N c - 48.

(** [s.match(/^(\d{2})\/(\d{2})\/(\d{4})$/)], with the three groups
    already through [Number]. *)
Definition matchDayMonthYear (s : jsstring) : option (Z * Z * Z) :=
  match s with
  | [d1; d2; s1; m1; m2; s2; y1; y2; y3; y4] =>
      if forallb isDigit [d1; d2; m1; m2; y1; y2; y3; y4]
         && (s1 =? 47)%N && (s2 =? 47)%N
      then Some (10 * digitVal d1 + digitVal d2,
                 10 * digitVal m1 + digitVal m2,
                 1000 * digitVal y1 + 100 * digitVal y2
                 + 10 * digitVal y3 + digitVal y4)
      else None
  | _ => None
  end.

(** The result is a valid date or [null]. *)
Definition excelToDate (value : JsVal) : option Z :=
  match value with
  | VDate (Some t) => Some t
  | _ =>
      match (match value with VNum x => parse_date_code x | _ => None end) with
      | Some (y, m, d) => Some (newDate y (m - 1) d)
      | None =>
          let s := trim (ToString (falsyOrEmpty value)) in
          match matchDayMonthYear s with
          | Some (dd, mm, yyyy) => Some (newDate yyyy (mm - 1) dd)
          | None => dateParse s
          end
      end
  end.

(** A raw row is the object [sheet_to_json] builds: its own properties in
    the order of [Object.keys]. *)
Definition RawRow : Type := list (jsstring * JsVal).

Fixpoint getBy (predicate : jsstring -> bool) (rawObj : RawRow) : JsVal :=
  match rawObj with
  | [] => VStr []
  | (k, v) :: rest =>
      if predicate (norm (VStr k)) then v else getBy predicate rest
  end.

Definition isCpfKey (k : jsstring) : bool :=
  str_eqb k (lit "cpf") || includes k (lit "cpf") || includes k (lit "cpf cnpj")
  || includes k (lit "cpf/cnpj") || includes k (lit "documento").
Definition isNomeKey (k : jsstring) : bool :=
  str_eqb k (lit "nome") || includes k (lit "nome") || includes k (lit "cliente").
Definition isValorKey (k : jsstring) : bool :=
  str_eqb k (lit "valor") || includes k (lit "valor") || includes k (lit "vlr")
  || includes k (lit "parcela") || includes k (lit "acordo").
Definition isVencKey (k : jsstring) : bool :=
  str_eqb k (lit "data") || includes k (lit "venc") || includes k (lit "vencimento")
  || includes k (lit "data venc") || includes k (lit "dt venc")
  || includes k (lit "vcto").
Definition isTelefoneKey (k : jsstring) : bool :=
  includes k (lit "tel") || includes k (lit "fone") || includes k (lit "cel")
  || includes k (lit "contato") || includes k (lit "whats").
Definition isTipoKey (k : jsstring) : bool :=
  includes k (lit "tipo") || includes k (lit "negoci")
  || includes k (lit "tipo de negoci") || includes k (lit "modalidade").
Definition isStatusKey (k : jsstring) : bool :=
  str_eqb k (lit "status") || includes k (lit "status")
  || includes k (lit "situacao") || includes k (lit "sit") || includes k (lit "pag").
Definition isObsKey (k : jsstring) : bool :=
  includes k (lit "obs") || includes k (lit "observacao")
  || includes k (lit "observa" ++ [231; 227]%N ++ lit "o")
  || includes k (lit "coment") || includes k (lit "anot").

Definition trimmedString (v : JsVal) : jsstring :=
  trim (ToString (nullishOrEmpty v)).

Definition mapRow (rawObj : RawRow) : Row :=
  let cpf := getBy isCpfKey rawObj in
  let nome := getBy isNomeKey rawObj in
  let valor := getBy isValorKey rawObj in
  let vencRaw := getBy isVencKey rawObj in
  let telefone := getBy isTelefoneKey rawObj in
  let tipoNegociacao := getBy isTipoKey rawObj in
  let status := getBy isStatusKey rawObj in
  let obs := getBy isObsKey rawObj in
  let vencDate := excelToDate vencRaw in
  {| _id := None;
     CPF := trimmedString cpf;
     Nome := trimmedString nome;
     Valor := valor;
     VencimentoISO := match vencDate with Some t => toISOString t | None => [] end;
     Telefone := trimmedString telefone;
     TipoNegociacao := trimmedString tipoNegociacao;
     Status := trimmedString status;
     Obs := trimmedString obs;
     PromessaISO := None;
     _source := None;
     createdAt := None |}.

(** [(r) => r.CPF || r.Nome || r.Telefone], as a condition. *)
Definition hasIdentity (r : Row) : bool :=
  negb (is_empty (CPF r)) || negb (is_empty (Nome r)) || negb (is_empty (Telefone r)).

Definition natToString (n : nat) : jsstring :=
  lit (NilEmpty.string_of_uint (Nat.to_uint n)).

Definition setId (id : jsstring) (r : Row) : Row :=
  {| _id := match _id r with Some x => Some x | None => Some id end;
     CPF := CPF r; Nome := Nome r; Valor := Valor r;
     VencimentoISO := VencimentoISO r; Telefone := Telefone r;
     TipoNegociacao := TipoNegociacao r; Status := Status r; Obs := Obs r;
     PromessaISO := PromessaISO r; _source := _source r;
     createdAt := createdAt r |}.

(** [mapped.map((r, i) => ({ _id: String(i + 1), ...r }))], from index [i]. *)
Fixpoint withIdFrom (i : nat) (mapped : list Row) : list Row :=
  match mapped with
  | [] => []
  | r :: rest => setId (natToString (i + 1)) r :: withIdFrom (S i) rest
  end.

(** The rows [loadSelectedSheet] extracts from the header-keyed rows of
    the selected sheet. *)
Definition importRows (json : list RawRow) : list Row :=
  let mapped := List.filter hasIdentity (List.map mapRow json) in
  withIdFrom 0 mapped.

End Excel.

(** ** Messaging link *)

Section Whats.
Context `{Host}.

Definition withCountryCode (d : jsstring) : jsstring :=
  if startsWith (lit "55") d then d else lit "55" ++ d.

Definition buildWhatsLinkBR (telefoneComDDD : JsVal) (message : jsstring) : jsstring :=
  let d := onlyDigits telefoneComDDD in
  let e164 := withCountryCode d in
  if (length e164 <? 12)%nat then []
  else lit "https://wa.me/" ++ e164 ++ lit "?text=" ++ encodeURIComponent message.

End Whats.

(** ** Due-date classification *)

Section Classifier.
Context `{Host}.

(** [today] is the time value of [new Date()] taken when the component
    mounts. *)
Variable today : Z.

Definition baseHoje : Z :=
  newDate (getFullYear today) (getMonth today) (getDate today).

(** [null], or a [Date] that may be invalid. *)
Definition vencDate (r : Row) : option (option Z) :=
  if negb (is_empty (VencimentoISO r)) then Some (dateParse (VencimentoISO r))
  else None.

(** On an invalid date the three getters return [NaN], and [===] is false. *)
Definition sameDay (a b : option (option Z)) : bool :=
  match a, b with
  | Some (Some ta), Some (Some tb) =>
      (getFullYear ta =? getFullYear tb)
      && (getMonth ta =? getMonth tb)
      && (getDate ta =? getDate tb)
  | _, _ => false
  end.

Definition isPago (r : Row) : bool :=
  includes (norm (VStr (Status r))) (lit "pago").

Definition venceHoje (r : Row) : bool :=
  match vencDate r with
  | Some d => sameDay (Some d) (Some (Some today)) && negb (isPago r)
  | None => false
  end.

(** [d < baseHoje] on dates compares time values. *)
Definition dateLt (d : option Z) (t : Z) : bool :=
  match d with
  | Some td => td <? t
  | None => false
  end.

Definition atrasado (r : Row) : bool :=
  match vencDate r with
  | Some d => dateLt d baseHoje && negb (isPago r)
  | None => false
  end.

(** Time values are integers, so [Math.floor(diff / MS_DAY)] is the floor
    division of [Z].  The result is a number; [None] is [NaN], which is what
    an invalid date gives. *)
Definition daysLate (r : Row) : option Z :=
  match vencDate r with
  | None => Some 0
  | Some d =>
      let baseVenc :=
        option_map (fun t => newDate (getFullYear t) (getMonth t) (getDate t)) d in
      let diff := option_map (fun b => baseHoje - b) baseVenc in
      option_map (fun x => x / MS_DAY) diff
  end.

(** Comparisons of a number that may be [NaN] with an integer. *)
Definition numGt (x : option Z) (n : Z) : bool :=
  match x with Some v => n <? v | None => false end.
Definition numGe (x : option Z) (n : Z) : bool :=
  match x with Some v => n <=? v | None => false end.
Definition numLe (x : option Z) (n : Z) : bool :=
  match x with Some v => v <=? n | None => false end.

Definition badgeForVenc (r : Row) : jsstring :=
  let pago := isPago r in
  let hoje_ := venceHoje r in
  let atr := atrasado r in
  if pago then lit "pill pillGood"
  else if atr then lit "pill pillBad"
  else if hoje_ then lit "pill pillWarn"
  else lit "pill".

(** *** Bulk copy *)

(** The array [phones] of [bulkPhones]. *)
Definition bulkPhoneList (rs : list Row) : list jsstring :=
  List.map withCountryCode
    (List.filter (fun d => negb (is_empty d) && (10 <=? length d)%nat)
       (List.map (fun r => onlyDigits (VStr (Telefone r))) rs)).

Definition bulkPhones (rs : list Row) : jsstring :=
  join [10%N] (bulkPhoneList rs).

Inductive BulkKind : Set := HOJE | QUEBRAS | ATRASADO_1_5.

Definition bulkFilter (kind : BulkKind) (r : Row) : bool :=
  match kind with
  | HOJE => venceHoje r && negb (isPago r)
  | QUEBRAS => atrasado r && numGt (daysLate r) 5 && negb (isPago r)
  | ATRASADO_1_5 =>
      atrasado r && numGe (daysLate r) 1 && numLe (daysLate r) 5
      && negb (isPago r)
  end.

(** The text handed to the clipboard, or [None] when the function only
    shows a notice.  [filtered] is the current view. *)
Definition copyBulkFromCurrentView (filtered : list Row) (kind : BulkKind)
    : option jsstring :=
  match filtered with
  | [] => None
  | _ =>
      let matching := List.filter (bulkFilter kind) filtered in
      match matching with
      | [] => None
      | _ => Some (bulkPhones matching)
      end
  end.

End Classifier.

(** ** Promises and the working set *)

Section WorkingSet.
Context `{Host}.

(** The promise store is the object [promises], read and written by key:
    a finite map.  Its keys are the identity keys the application builds,
    all of which start with "cpf:", "tel:" or "custom:", so none of them
    meets a property inherited from [Object.prototype].

    [upsertPromiseByKey] hands [setPromises] an updater; this is the
    updater, applied to the previous store [prev]. *)
Definition upsertPromiseByKey (key : jsstring)
    (payloadOrNull : option Promise.payload)
    (prev : gmap jsstring Promise.payload) : gmap jsstring Promise.payload :=
  let next := prev in
  match payloadOrNull with
  | None => delete key next
  | Some payload => <[key := payload]> next
  end.

Definition setPromessaISO (iso : jsstring) (r : Row) : Row :=
  {| _id := _id r; CPF := CPF r; Nome := Nome r; Valor := Valor r;
     VencimentoISO := VencimentoISO r; Telefone := Telefone r;
     TipoNegociacao := TipoNegociacao r; Status := Status r; Obs := Obs r;
     PromessaISO := Some iso; _source := _source r;
     createdAt := createdAt r |}.

Definition setSource (src : jsstring) (r : Row) : Row :=
  {| _id := _id r; CPF := CPF r; Nome := Nome r; Valor := Valor r;
     VencimentoISO := VencimentoISO r; Telefone := Telefone r;
     TipoNegociacao := TipoNegociacao r; Status := Status r; Obs := Obs r;
     PromessaISO := PromessaISO r; _source := Some src;
     createdAt := createdAt r |}.

(** The body of the [map] in [mergePromisesIntoRows]. *)
Definition mergePromise (promises : gmap jsstring Promise.payload) (r : Row) : Row :=
  let k := keyForClientLike r in
  let p := if negb (is_empty k) then promises !! k else None in
  match p with
  | Some p =>
      if is_empty (Promise.promiseISO p) then r
      else setPromessaISO (Promise.promiseISO p) r
  | None => r
  end.

Definition mergePromisesIntoRows (promises : gmap jsstring Promise.payload)
    (inRows : list Row) : list Row :=
  List.map (mergePromise promises) inRows.

(** The body of the [map] in [manualRows]; on a string, [s || ''] is [s]. *)
Definition manualRow (c : Row) : Row :=
  {| _id := _id c;
     CPF := CPF c;
     Nome := Nome c;
     Valor := nullishOrEmpty (Valor c);
     VencimentoISO := VencimentoISO c;
     Telefone := Telefone c;
     TipoNegociacao := TipoNegociacao c;
     Status := Status c;
     Obs := Obs c;
     PromessaISO := Some (default [] (PromessaISO c));
     _source := Some (lit "manual");
     createdAt := Some (default [] (createdAt c)) |}.

Definition manualRows (manualClients : list Row) : list Row :=
  List.map manualRow manualClients.

Definition composeRows (manualClients : list Row)
    (promises : gmap jsstring Promise.payload) (importedRows : list Row)
    : list Row :=
  let imp := List.map (setSource (lit "excel")) importedRows in
  mergePromisesIntoRows promises (manualRows manualClients ++ imp).

(** *** The component state and its handlers

    A handler reads the state of the render that created it and queues
    updaters; the result is the state of the next render.  The updater
    [(prev) => mergePromisesIntoRows(prev)] runs the
    [mergePromisesIntoRows] of the render that created the handler, so it
    reads the promises of that render. *)
Record AppState : Type := mkState {
  manualClients : list Row;
  promises : gmap jsstring Promise.payload;
  rows : list Row
}.

Definition loadSelectedSheet (json : list RawRow) (s : AppState) : AppState :=
  {| manualClients := manualClients s;
     promises := promises s;
     rows := composeRows (manualClients s) (promises s) (importRows json) |}.

(** [handleFile] starts reading the file and returns; the rows are set
    later, in [reader.onload], with the [manualRows] and the
    [mergePromisesIntoRows] of the render in which the file was chosen.
    [seen] is the state of that render, [s] the state when the read ends. *)
Definition handleFile (seen s : AppState) : AppState :=
  {| manualClients := manualClients s;
     promises := promises s;
     rows := mergePromisesIntoRows (promises seen)
               (manualRows (manualClients seen)) |}.

(** [savePromiseDraft] and [savePromiseFromForm], once the key and the
    payload are built. *)
Definition savePromise (key : jsstring) (payload : Promise.payload)
    (s : AppState) : AppState :=
  {| manualClients := manualClients s;
     promises := upsertPromiseByKey key (Some payload) (promises s);
     rows := mergePromisesIntoRows (promises s) (rows s) |}.

(** [confirmed] is the answer to the confirmation dialog. *)
Definition removePromiseByKey (confirmed : bool) (key : jsstring)
    (s : AppState) : AppState :=
  if negb confirmed then s
  else
    {| manualClients := manualClients s;
       promises := upsertPromiseByKey key None (promises s);
       rows := mergePromisesIntoRows (promises s) (rows s) |}.

(** [saveManualClient], once the form is validated and [item] is built. *)
Definition saveManualClient (item : Row) (s : AppState) : AppState :=
  {| manualClients := item :: manualClients s;
     promises := promises s;
     rows := mergePromisesIntoRows (promises s)
               (setSource (lit "manual") item :: rows s) |}.

Definition deleteAllManualClients (confirmed : bool) (s : AppState) : AppState :=
  if negb confirmed then s
  else
    {| manualClients := [];
       promises := promises s;
       rows := List.filter
                 (fun r => negb (bool_decide (_source r = Some (lit "manual"))))
                 (rows s) |}.

End WorkingSet.

(** ** The client view and its counters *)

Section View.
Context `{Host}.
Variable today : Z.

(** The values the filter selector offers. *)
Inductive Filter : Set := TODOS | PAGO | PENDENTE | VENCE_HOJE | ATRASADO.

Definition byFilter (filter : Filter) (r : Row) : bool :=
  match filter with
  | TODOS => true
  | PAGO => isPago r
  | PENDENTE => negb (isPago r)
  | VENCE_HOJE => venceHoje today r
  | ATRASADO => atrasado today r
  end.

(** [query] is [q.trim().toLowerCase()]. *)
Definition bySearch (query : jsstring) (r : Row) : bool :=
  if is_empty query then true
  else includes (toLowerCase (CPF r)) query
       || includes (toLowerCase (Nome r)) query
       || includes (toLowerCase (Telefone r)) query.

Definition filtered (q : jsstring) (filter : Filter) (rows : list Row) : list Row :=
  let query := toLowerCase (trim q) in
  List.filter (fun r => byFilter filter r && bySearch query r) rows.

Record Stats : Set := mkStats {
  totalClientes : nat;
  pendentes : nat;
  pagos : nat;
  venceHojeCount : nat;
  atrasados : nat;
  manuais : nat
}.

Definition stats (rows : list Row) : Stats :=
  {| totalClientes := length rows;
     pendentes := length (List.filter (fun r => negb (isPago r)) rows);
     pagos := length (List.filter isPago rows);
     venceHojeCount := length (List.filter (venceHoje today) rows);
     atrasados := length (List.filter (atrasado today) rows);
     manuais := length (List.filter
                          (fun r => bool_decide (_source r = Some (lit "manual")))
                          rows) |}.

(** *** The promise page *)

(** An entry of [promiseList]. *)
Record PromiseItem : Type := mkItem {
  itemKey : jsstring;
  itemISO : jsstring;
  itemPayload : Promise.payload
}.

Inductive PromiseView : Set := TODAS | P_HOJE | VENCIDAS | PROX7.

Record PromiseCounts : Set := mkCounts {
  total : nat;
  hoje : nat;
  vencidas : nat;
  prox7 : nat
}.

(** What the callback of [promiseComputed] computes for one entry:
    [None] when the date is invalid, else [(isHoje, isVencida, isProx7)]. *)
Definition promiseFlags (p : PromiseItem) : option (bool * bool * bool) :=
  match dateParse (itemISO p) with
  | None => None
  | Some d =>
      let baseP := newDate (getFullYear d) (getMonth d) (getDate d) in
      let diffDays := (baseP - baseHoje today) / MS_DAY in
      let isHoje := sameDay (Some (Some baseP)) (Some (Some (baseHoje today))) in
      let isVencida := baseP <? baseHoje today in
      let isProx7 := (0 <=? diffDays) && (diffDays <=? 7) in
      Some (isHoje, isVencida, isProx7)
  end.

Definition inView (view : PromiseView) (flags : bool * bool * bool) : bool :=
  let '(isHoje, isVencida, isProx7) := flags in
  match view with
  | TODAS => true
  | P_HOJE => isHoje
  | VENCIDAS => isVencida
  | PROX7 => isProx7
  end.

Definition bump (b : bool) (n : nat) : nat := if b then S n else n.

(** The [filter] of [promiseComputed]: it walks [base] once, keeps the
    entries of the view and counts on the way. *)
Fixpoint promiseScan (view : PromiseView) (base : list PromiseItem)
    (counts : PromiseCounts) : list PromiseItem * PromiseCounts :=
  match base with
  | [] => ([], counts)
  | p :: rest =>
      match promiseFlags p with
      | None => promiseScan view rest counts
      | Some (isHoje, isVencida, isProx7) =>
          let counts' :=
            {| total := total counts;
               hoje := bump isHoje (hoje counts);
               vencidas := bump isVencida (vencidas counts);
               prox7 := bump isProx7 (prox7 counts) |} in
          let '(kept, final) := promiseScan view rest counts' in
          (if inView view (isHoje, isVencida, isProx7) then p :: kept else kept,
           final)
      end
  end.

Definition promiseComputed (view : PromiseView) (base : list PromiseItem)
    : list PromiseItem * PromiseCounts :=
  promiseScan view base
    {| total := length base; hoje := O; vencidas := O; prox7 := O |}.

(** Whether an entry has a valid date and the flag that [pick] reads. *)
Definition flagged (pick : bool * bool * bool -> bool) (p : PromiseItem) : bool :=
  match promiseFlags p with
  | Some flags => pick flags
  | None => false
  end.

End View.

(** ** Promise keys *)

Section PromiseKeys.
Context `{Host}.

(** The key [savePromiseFromForm] files the promise under; [fresh] is what
    [uid()] returns, [CPF] and [Telefone] are the trimmed form fields. *)
Definition formKey (CPF Telefone fresh : jsstring) : jsstring :=
  if negb (is_empty CPF) then lit "cpf:" ++ onlyDigits (VStr CPF)
  else if negb (is_empty Telefone) then lit "tel:" ++ onlyDigits (VStr Telefone)
  else lit "custom:" ++ fresh.

(** The key [openPromiseForClient] gives the draft. *)
Definition draftKey (r : Row) (fresh : jsstring) : jsstring :=
  let k := keyForClientLike r in
  if negb (is_empty k) then k else lit "custom:" ++ fresh.

(** The [hasPromise] of a table row: whether the menu offers to edit a
    promise. *)
Definition hasPromise (promises : gmap jsstring Promise.payload) (r : Row) : bool :=
  let promKey := keyForClientLike r in
  if negb (is_empty promKey) then
    match promises !! promKey with
    | Some p => negb (is_empty (Promise.promiseISO p))
    | None => false
    end
  else false.

(** The effect on [rows] that runs once after the first render. *)
Definition initRows (s : AppState) : AppState :=
  {| manualClients := manualClients s;
     promises := promises s;
     rows := match rows s with
             | [] => mergePromisesIntoRows (promises s) (manualRows (manualClients s))
             | _ => rows s
             end |}.

(** The [item] that [saveManualClient] builds from the validated form:
    [id] is what [uid()] returns, [valor] what [parseBRLToNumber] returns,
    a number or a string, and [now] the time of the save. *)
Definition manualItem (id CPF Nome Telefone : jsstring)
    (valor : number + jsstring) (vencISO : jsstring) (now : Z) : Row :=
  {| _id := Some id;
     CPF := CPF;
     Nome := Nome;
     Valor := match valor with inl n => VNum n | inr text => VStr text end;
     VencimentoISO := vencISO;
     Telefone := Telefone;
     TipoNegociacao := [];
     Status := [];
     Obs := [];
     PromessaISO := Some [];
     _source := None;
     createdAt := Some (toISOString now) |}.

(** What happens to the working set.  [HandleFile age] is the end of the
    read of a file that was chosen [age] actions earlier; the other actions
    are handlers that run at once. *)
Inductive Action : Type :=
  | HandleFile (age : nat)
  | LoadSelectedSheet (json : list RawRow)
  | SaveManualClient (id CPF Nome Telefone : jsstring)
      (valor : number + jsstring) (vencISO : jsstring) (now : Z)
  | DeleteAllManualClients (confirmed : bool)
  | SavePromise (key : jsstring) (payload : Promise.payload)
  | RemovePromiseByKey (confirmed : bool) (key : jsstring).

(** [past] holds the earlier states, the latest first. *)
Definition step (past : list AppState) (s : AppState) (a : Action) : AppState :=
  match a with
  | HandleFile age => handleFile (nth age (s :: past) s) s
  | LoadSelectedSheet json => loadSelectedSheet json s
  | SaveManualClient id CPF Nome Telefone valor vencISO now =>
      saveManualClient (manualItem id CPF Nome Telefone valor vencISO now) s
  | DeleteAllManualClients confirmed => deleteAllManualClients confirmed s
  | SavePromise key payload => savePromise key payload s
  | RemovePromiseByKey confirmed key => removePromiseByKey confirmed key s
  end.

Fixpoint runFrom (past : list AppState) (s : AppState) (actions : list Action)
    : AppState :=
  match actions with
  | [] => s
  | a :: rest => runFrom (s :: past) (step past s a) rest
  end.

Definition run (s : AppState) (actions : list Action) : AppState :=
  runFrom [] s actions.

(** An action that changes the stored manual clients. *)
Definition changesManual (a : Action) : bool :=
  match a with
  | SaveManualClient _ _ _ _ _ _ _ => true
  | DeleteAllManualClients confirmed => confirmed
  | _ => false
  end.

(** No read of a file spans a manual save or a confirmed deletion of the
    manual clients.  [done] holds the actions already taken, the latest
    first. *)
Fixpoint readsSettled (done actions : list Action) : bool :=
  match actions with
  | [] => true
  | a :: rest =>
      match a with
      | HandleFile age => negb (existsb changesManual (firstn age done))
      | _ => true
      end
      && readsSettled (a :: done) rest
  end.

End PromiseKeys.

(** ** Export *)

Section Exporting.
Context `{Host}.

(** [d.toLocaleDateString('pt-BR')], on a date that may be invalid. *)
Variable toLocaleDateString : option Z -> jsstring.

Definition formatBR (d : option (option Z)) : jsstring :=
  match d with
  | Some d => toLocaleDateString d
  | None => []
  end.

(** The ten columns of the export, in their order. *)
Definition exportHeaders : list jsstring :=
  [ lit "CPF"; lit "Nome"; lit "Valor"; lit "Vencimento"; lit "Telefone";
    lit "Tipo de negocia" ++ [231; 227]%N ++ lit "o"; lit "Status"; lit "Obs";
    lit "Promessa"; lit "Origem" ].

(** The object [exportar] builds for one row. *)
Definition exportRow (r : Row) : RawRow :=
  let d := vencDate r in
  List.combine exportHeaders
    [ VStr (CPF r);
      VStr (Nome r);
      Valor r;
      VStr (match d with Some _ => formatBR d | None => [] end);
      VStr (Telefone r);
      VStr (TipoNegociacao r);
      VStr (Status r);
      VStr (Obs r);
      VStr (match PromessaISO r with
            | Some iso =>
                if negb (is_empty iso) then formatBR (Some (dateParse iso)) else []
            | None => []
            end);
      VStr (default [] (_source r)) ].

(** [r[h]] *)
Fixpoint getProp (h : jsstring) (r : RawRow) : JsVal :=
  match r with
  | [] => VUndefined
  | (k, v) :: rest => if str_eqb k h then v else getProp h rest
  end.

(** The [replace] of [esc]: every quote (code unit 34) is doubled. *)
Fixpoint doubleQuotes (s : jsstring) : jsstring :=
  match s with
  | [] => []
  | c :: s' => if (c =? 34)%N then 34%N :: 34%N :: doubleQuotes s'
               else c :: doubleQuotes s'
  end.

Definition esc (val : JsVal) : jsstring :=
  let s := ToString (nullishOrEmpty val) in
  if includes s [34%N] || includes s [44%N] || includes s [10%N]
  then [34%N] ++ doubleQuotes s ++ [34%N]
  else s.

(** The text [downloadCSV] writes, [None] when it writes nothing. *)
Definition csvText (rows : list RawRow) : option jsstring :=
  match rows with
  | [] => None
  | first :: _ =>
      let headers := List.map fst first in
      Some (join [10%N]
              (join [44%N] headers
               :: List.map
                    (fun r => join [44%N] (List.map (fun h => esc (getProp h r)) headers))
                    rows))
  end.

(** [exportar('csv')] *)
Definition exportCsv (rows : list Row) : option jsstring :=
  match rows with
  | [] => None
  | _ => csvText (List.map exportRow rows)
  end.

End Exporting.

(** ** A reader of delimited text

    The reader the export is checked against: fields are separated by
    commas, records by line feeds; a field that opens with a quote runs to
    its closing quote, and a doubled quote inside it stands for one. *)

Module Csv.

Inductive State : Set := FieldStart | Unquoted | Quoted | QuoteSeen.

Fixpoint scan (st : State) (cur : jsstring) (row : list jsstring) (s : jsstring)
    : list (list jsstring) :=
  match s with
  | [] => [row ++ [cur]]
  | c :: s' =>
      match st with
      | Quoted =>
          if (c =? 34)%N then scan QuoteSeen cur row s'
          else scan Quoted (cur ++ [c]) row s'
      | _ =>
          if (c =? 34)%N then
            match st with
            | FieldStart => scan Quoted cur row s'
            | QuoteSeen => scan Quoted (cur ++ [c]) row s'
            | _ => scan Unquoted (cur ++ [c]) row s'
            end
          else if (c =? 44)%N then scan FieldStart [] (row ++ [cur]) s'
          else if (c =? 10)%N then (row ++ [cur]) :: scan FieldStart [] [] s'
          else scan Unquoted (cur ++ [c]) row s'
      end
  end.

Definition parse (s : jsstring) : list (list jsstring) := scan FieldStart [] [] s.

(** A code unit that is neither a quote, a comma nor a line feed. *)
Definition isPlain (c : N) : bool :=
  negb ((c =? 34)%N || (c =? 44)%N || (c =? 10)%N).

(** What may follow a field: the end of the text, a comma or a line feed. *)
Definition atFieldEnd (s : jsstring) : bool :=
  match s with
  | [] => true
  | c :: _ => (c =? 44)%N || (c =? 10)%N
  end.

(** [written] is read back as the field [text] wherever a field may end
    after it. *)
Definition readsAs (written text : jsstring) : Prop :=
  forall (row : list jsstring) (rest : jsstring),
    atFieldEnd rest = true ->
    scan FieldStart [] row (written ++ rest) = scan Unquoted text row rest.

End Csv.

(** ** Shapes of text

    Predicates the properties of [trim] and [norm] are stated with. *)

Definition startsClean (s : jsstring) : bool :=
  match s with
  | [] => true
  | c :: _ => negb (isWhite c)
  end.

Definition endsClean (s : jsstring) : bool := startsClean (rev s).

(** No two white code units in a row. *)
Fixpoint spacedOnce (s : jsstring) : bool :=
  match s with
  | c :: ((c' :: _) as s') => negb (isWhite c && isWhite c') && spacedOnce s'
  | _ => true
  end.

(** ** Views of rows used to state properties *)

Section RowViews.
Context `{Host}.

(** The row without its [_id]. *)
Definition clearId (r : Row) : Row :=
  {| _id := None;
     CPF := CPF r; Nome := Nome r; Valor := Valor r;
     VencimentoISO := VencimentoISO r; Telefone := Telefone r;
     TipoNegociacao := TipoNegociacao r; Status := Status r; Obs := Obs r;
     PromessaISO := PromessaISO r; _source := _source r;
     createdAt := createdAt r |}.

(** A column name that one of the eight tests of [mapRow] accepts. *)
Definition isMappedKey (k : jsstring) : bool :=
  let nk := norm (VStr k) in
  isCpfKey nk || isNomeKey nk || isValorKey nk || isVencKey nk
  || isTelefoneKey nk || isTipoKey nk || isStatusKey nk || isObsKey nk.

(** [r._source === 'manual'] *)
Definition isManual (r : Row) : bool :=
  bool_decide (_source r = Some (lit "manual")).

End RowViews.

(** ** What holds of the working set at all times *)

Section Invariant.
Context `{Host}.

(** The row without its promise date. *)
Definition clearPromessa (r : Row) : Row :=
  {| _id := _id r; CPF := CPF r; Nome := Nome r; Valor := Valor r;
     VencimentoISO := VencimentoISO r; Telefone := Telefone r;
     TipoNegociacao := TipoNegociacao r; Status := Status r; Obs := Obs r;
     PromessaISO := None; _source := _source r;
     createdAt := createdAt r |}.

(** The manual rows of [l] are, field by field and the promise date aside,
    the rows [manualRows] makes of the manual clients [m], one row each and
    in their order; they come before the rows of the sheet; and every row
    is marked manual or excel. *)
Definition rowsInv (m l : list Row) : Prop :=
  List.map clearPromessa (List.filter isManual l)
  = List.map clearPromessa (manualRows m)
  /\ l = List.filter isManual l ++ List.filter (fun r => negb (isManual r)) l
  /\ Forall (fun r => _source r = Some (lit "manual")
                      \/ _source r = Some (lit "excel")) l.

Definition WorkingSetInv (s : AppState) : Prop :=
  rowsInv (manualClients s) (rows s).

End Invariant.

(** ** Reference hosts

    Concrete hosts on which the definitions run: ASCII text, integer
    numbers, dates printed and parsed in the format of [toISOString], the
    proleptic Gregorian calendar (without the constructor's rule for years
    0 to 99), and a local time zone given by its offset from UTC. *)

Module RefHost.

Definition asciiLower (s : jsstring) : jsstring :=
  List.map (fun c => if ((65 <=? c) && (c <=? 90))%N then (c + 32)%N else c) s.

(** *** Calendar: days since 1 January 1970 *)

Definition dayFromYear (y : Z) : Z :=
  365 * (y - 1970) + (y - 1969) / 4 - (y - 1901) / 100 + (y - 1601) / 400.

(** 1 in a leap year, 0 otherwise. *)
Definition leapDay (y : Z) : Z := dayFromYear (y + 1) - dayFromYear y - 365.

(** The day of the year on which month [m], from 0 to 11, starts. *)
Definition monthStart (m leap : Z) : Z :=
  if m <=? 0 then 0
  else if m =? 1 then 31
  else if m =? 2 then 59 + leap
  else if m =? 3 then 90 + leap
  else if m =? 4 then 120 + leap
  else if m =? 5 then 151 + leap
  else if m =? 6 then 181 + leap
  else if m =? 7 then 212 + leap
  else if m =? 8 then 243 + leap
  else if m =? 9 then 273 + leap
  else if m =? 10 then 304 + leap
  else 334 + leap.

Definition yearOfDay (n : Z) : Z :=
  let z := n + 719468 in
  let era := z / 146097 in
  let doe := z - era * 146097 in
  let yoe := (doe - doe / 1460 + doe / 36524 - doe / 146096) / 365 in
  let doy := doe - (365 * yoe + yoe / 4 - yoe / 100) in
  yoe + era * 400 + (if doy <? 306 then 0 else 1).

Definition monthOfDay (n : Z) : Z :=
  let y := yearOfDay n in
  let d := n - dayFromYear y in
  let leap := leapDay y in
  if d <? monthStart 1 leap then 0
  else if d <? monthStart 2 leap then 1
  else if d <? monthStart 3 leap then 2
  else if d <? monthStart 4 leap then 3
  else if d <? monthStart 5 leap then 4
  else if d <? monthStart 6 leap then 5
  else if d <? monthStart 7 leap then 6
  else if d <? monthStart 8 leap then 7
  else if d <? monthStart 9 leap then 8
  else if d <? monthStart 10 leap then 9
  else if d <? monthStart 11 leap then 10
  else 11.

Definition dateOfDay (n : Z) : Z :=
  let y := yearOfDay n in
  n - dayFromYear y - monthStart (monthOfDay n) (leapDay y) + 1.

(** Month index [m] counts from 0 and may overflow into other years. *)
Definition dayOfFields (y m d : Z) : Z :=
  let ym := y + m / 12 in
  dayFromYear ym + monthStart (m mod 12) (leapDay ym) + d - 1.

(** *** Printing and parsing *)

(** The last [w] decimal digits of [z]. *)
Fixpoint digits (w : nat) (z : Z) : jsstring :=
  match w with
  | O => []
  | S w' => digits w' (z / 10) ++ [(Z.to_N (z mod 10) + 48)%N]
  end.

Definition toISO (t : Z) : jsstring :=
  let n := t / MS_DAY in
  let ms := t mod MS_DAY in
  digits 4 (yearOfDay n) ++ lit "-" ++ digits 2 (monthOfDay n + 1) ++ lit "-"
  ++ digits 2 (dateOfDay n) ++ lit "T"
  ++ digits 2 (ms / 3600000) ++ lit ":" ++ digits 2 (ms / 60000 mod 60)
  ++ lit ":" ++ digits 2 (ms / 1000 mod 60) ++ lit "." ++ digits 3 (ms mod 1000)
  ++ lit "Z".

Definition numberOf (s : jsstring) : option Z :=
  if forallb isDigit s
  then Some (fold_left (fun acc c => 10 * acc + digitVal c) s 0)
  else None.

Definition field (from len : nat) (s : jsstring) : option Z :=
  numberOf (firstn len (skipn from s)).

Definition charAt (i : nat) (s : jsstring) : N := nth i s 0%N.

(** [YYYY-MM-DDTHH:mm:ss.sssZ], anything else is not a date. *)
Definition parseISO (s : jsstring) : option Z :=
  if (length s =? 24)%nat
     && (charAt 4 s =? 45)%N && (charAt 7 s =? 45)%N && (charAt 10 s =? 84)%N
     && (charAt 13 s =? 58)%N && (charAt 16 s =? 58)%N && (charAt 19 s =? 46)%N
     && (charAt 23 s =? 90)%N
  then
    match field 0 4 s, field 5 2 s, field 8 2 s,
          field 11 2 s, field 14 2 s, field 17 2 s, field 20 3 s with
    | Some y, Some m, Some d, Some hh, Some mi, Some ss, Some ms =>
        if (1 <=? m) && (m <=? 12) && (1 <=? d) && (d <=? 31)
           && (hh <? 24) && (mi <? 60) && (ss <? 60)
        then Some (dayOfFields y (m - 1) d * MS_DAY
                   + hh * 3600000 + mi * 60000 + ss * 1000 + ms)
        else None
    | _, _, _, _, _, _, _ => None
    end
  else None.

Definition printDate (t : option Z) : jsstring :=
  match t with
  | Some t => toISO t
  | None => lit "Invalid Date"
  end.

Definition printZ (z : Z) : jsstring :=
  lit (NilEmpty.string_of_int (Z.to_int z)).

(** Serial dates of the 1900 system after February 1900. *)
Definition dateCode (v : Z) : option (Z * Z * Z) :=
  if (61 <=? v) && (v <=? 2958465)
  then let n := v - 25569 in Some (yearOfDay n, monthOfDay n + 1, dateOfDay n)
  else None.

Definition hexDigit (n : N) : N :=
  (if n <? 10 then n + 48 else n + 55)%N.

Definition percent (byte : N) : jsstring :=
  [37%N; hexDigit (byte / 16); hexDigit (byte mod 16)].

Definition isUnreserved (c : N) : bool :=
  (((65 <=? c) && (c <=? 90)) || ((97 <=? c) && (c <=? 122)) || isDigit c
   || existsb (N.eqb c) [45; 95; 46; 33; 126; 42; 39; 40; 41])%N.

(** Code units of the Basic Multilingual Plane, as UTF-8. *)
Definition encodeUnit (c : N) : jsstring :=
  (if isUnreserved c then [c]
   else if c <? 128 then percent c
   else if c <? 2048 then percent (192 + c / 64) ++ percent (128 + c mod 64)
   else percent (224 + c / 4096) ++ percent (128 + c / 64 mod 64)
        ++ percent (128 + c mod 64))%N.

Definition encodeURI (s : jsstring) : jsstring := concat (List.map encodeUnit s).

(** *** Hosts *)

(** A host whose local time is [offsetAt t] milliseconds ahead of UTC at
    the instant [t], and whose constructor places the midnight that opens
    day [n] of local time at [midnight n]. *)
Definition zone (offsetAt : Z -> Z) (midnight : Z -> Z) : Host :=
  {| toLowerCase := asciiLower;
     normalizeNFD := fun s => s;
     number := Z;
     numberToString := printZ;
     numberTruthy := fun z => negb (z =? 0);
     parse_date_code := dateCode;
     dateToString := printDate;
     dateParse := parseISO;
     toISOString := toISO;
     encodeURIComponent := encodeURI;
     getFullYear := fun t => yearOfDay ((t + offsetAt t) / MS_DAY);
     getMonth := fun t => monthOfDay ((t + offsetAt t) / MS_DAY);
     getDate := fun t => dateOfDay ((t + offsetAt t) / MS_DAY);
     newDate := fun y m d => midnight (dayOfFields y m d) |}.

(** A zone at the constant offset [off] milliseconds from UTC. *)
Definition fixed (off : Z) : Host :=
  zone (fun _ => off) (fun n => n * MS_DAY - off).

(** America/Sao_Paulo, UTC-03:00 all year. *)
Definition brt : Host := fixed (-10800000).

(** 2024-03-10T07:00:00Z, when America/New_York moves from UTC-05:00 to
    UTC-04:00. *)
Definition springForward : Z := 19792 * MS_DAY + 7 * 3600000.

(** America/New_York around that change. *)
Definition newYork : Host :=
  zone (fun t => if t <? springForward then -18000000 else -14400000)
       (fun n => if n * MS_DAY + 18000000 <? springForward
                 then n * MS_DAY + 18000000
                 else n * MS_DAY + 14400000).

(** 2024-11-03T06:00:00Z, when America/New_York moves back from UTC-04:00
    to UTC-05:00. *)
Definition fallBack : Z := 20030 * MS_DAY + 6 * 3600000.

(** America/New_York around that change. *)
Definition newYorkAutumn : Host :=
  zone (fun t => if t <? fallBack then -14400000 else -18000000)
       (fun n => if n * MS_DAY + 14400000 <? fallBack
                 then n * MS_DAY + 14400000
                 else n * MS_DAY + 18000000).

End RefHost.

(** ** Bulk selection as the specification words it *)

Module Spec.

(** Reduce the phone to its digits, discard it if fewer than 10 remain,
    prepend the country prefix unless it is already there. *)
Definition normalizePhone (phone : jsstring) : option jsstring :=
  let d := List.filter isDigit phone in
  if (length d <? 10)%nat then None
  else Some (if startsWith (lit "55") d then d else lit "55" ++ d).

(** Overdue, not paid, more than 5 days late. *)
Definition isBreach `{Host} (today : Z) (r : Row) : bool :=
  atrasado today r && negb (isPago r) && numGt (daysLate today r) 5.

(** The phones of the matching records, in the order of the view, one
    entry per record. *)
Fixpoint selectBreachPhones `{Host} (today : Z) (view : list Row) : list jsstring :=
  match view with
  | [] => []
  | r :: rest =>
      if isBreach today r then
        match normalizePhone (Telefone r) with
        | Some phone => phone :: selectBreachPhones today rest
        | None => selectBreachPhones today rest
        end
      else selectBreachPhones today rest
  end.

End Spec.

(** ** Sample data *)

Module Sample.

Definition row `{Host} (id cpf nome venc tel status : string) : Row :=
  {| _id := Some (lit id); CPF := lit cpf; Nome := lit nome;
     Valor := VStr (lit "150,00");
     VencimentoISO := lit venc; Telefone := lit tel;
     TipoNegociacao := []; Status := lit status; Obs := [];
     PromessaISO := None; _source := None; createdAt := None |}.

Definition promise `{Host} (iso : string) : Promise.payload :=
  {| Promise.promiseISO := lit iso;
     Promise.updatedAt := lit "2024-03-10T12:00:00.000Z";
     Promise.note := [];
     Promise.snap :=
       {| Promise.Nome := []; Promise.Telefone := []; Promise.CPF := [];
          Promise.Valor := VStr [] |} |}.

Definition keyAna : jsstring := lit "cpf:12345678900".
Definition keyBia : jsstring := lit "tel:11987654321".

Definition store `{Host} : gmap jsstring Promise.payload :=
  <[keyAna := promise "2024-03-20T03:00:00.000Z"]>
    (<[keyBia := promise "2024-03-22T03:00:00.000Z"]> ∅).

(** 2024-03-15T15:00:00Z, noon of 15 March 2024 at UTC-03:00. *)
Definition noon15March : Z := 1710514800000.

(** 2024-03-11T16:00:00Z, noon of 11 March 2024 in New York. *)
Definition noon11March : Z := 1710172800000.

(** Five clients seen on 15 March 2024: two are overdue and unpaid, by 6
    and by 10 days. *)
Definition view `{Host} : list Row :=
  [ row "1" "123.456.789-00" "Ana" "2024-03-09T03:00:00.000Z" "(11) 98765-4321" "";
    row "2" "" "Bia" "2024-03-20T03:00:00.000Z" "(11) 91111-2222" "";
    row "3" "987.654.321-00" "Caio" "2024-03-05T03:00:00.000Z" "+55 (21) 91234-5678" "em aberto";
    row "4" "" "Dora" "2024-03-01T03:00:00.000Z" "(31) 93333-4444" "Pago";
    row "5" "" "Edu" "2024-03-15T03:00:00.000Z" "(41) 95555-6666" "" ].

(** A header-keyed row of a sheet. *)
Definition raw `{Host} (cpf nome tel valor venc : string) : RawRow :=
  [ (lit "CPF/CNPJ", VStr (lit cpf)); (lit "Nome do Cliente", VStr (lit nome));
    (lit "Telefone", VStr (lit tel)); (lit "Valor", VStr (lit valor));
    (lit "Vencimento", VStr (lit venc)) ].

(** A sheet with a banner and a blank row before its header. *)
Definition sheet `{Host} : list (list JsVal) :=
  [ [VStr (lit "Relatorio de acordos")];
    [];
    [VStr (lit "CPF/CNPJ"); VStr (lit "Nome do Cliente"); VStr (lit "Valor")];
    [VStr (lit "123.456.789-00"); VStr (lit "Ana"); VStr (lit "150,00")] ].

(** A sheet with no labelled row, and a sheet with nothing to go by. *)
Definition plainSheet `{Host} : list (list JsVal) :=
  [ [VStr (lit "Carteira")];
    [VStr (lit "a"); VStr (lit " "); VStr (lit "b"); VStr (lit "c")] ].
Definition bareSheet `{Host} : list (list JsVal) := [ [VStr (lit "Carteira")] ].

(** Ana's row in a sheet, and the state of a session that holds promises
    for Ana and Bia and has loaded nothing yet. *)
Definition anaRaw `{Host} : RawRow :=
  raw "123.456.789-00" "Ana" "(11) 98765-4321" "150,00" "15/03/2024".

Definition fresh `{Host} : AppState :=
  {| manualClients := []; promises := store; rows := [] |}.

End Sample.

(** * Properties *)

(** ** Strings and values *)

Section UtilsFacts.
Context `{Host}.

Lemma is_empty_true (s : jsstring) : is_empty s = true <-> s = [].
Proof. destruct s; simpl; split; congruence. Qed.

Lemma is_empty_length (s : jsstring) : is_empty s = (length s =? 0)%nat.
Proof. now destruct s. Qed.

Lemma ToString_falsyOrEmpty_str (s : jsstring) :
  ToString (falsyOrEmpty (VStr s)) = s.
Proof. unfold falsyOrEmpty; simpl. now destruct s. Qed.

Lemma onlyDigits_str (s : jsstring) :
  onlyDigits (VStr s) = List.filter isDigit s.
Proof. unfold onlyDigits. now rewrite ToString_falsyOrEmpty_str. Qed.

Lemma onlyDigits_all_digits (v : JsVal) : forallb isDigit (onlyDigits v) = true.
Proof.
  unfold onlyDigits. induction (ToString (falsyOrEmpty v)) as [|c s IH]; simpl.
  - reflexivity.
  - destruct (isDigit c) eqn:E; simpl; [rewrite E|]; auto.
Qed.

End UtilsFacts.

(** ** Identity keys *)

Section IdentityFacts.
Context `{Host}.

Lemma keyForClientLike_unfold (r : Row) :
  keyForClientLike r =
  let cpf := List.filter isDigit (CPF r) in
  let tel := List.filter isDigit (Telefone r) in
  if (8 <=? length cpf)%nat then lit "cpf:" ++ cpf
  else if (10 <=? length tel)%nat then lit "tel:" ++ tel
  else [].
Proof.
  unfold keyForClientLike. rewrite !onlyDigits_str. cbv zeta.
  rewrite !is_empty_length.
  destruct (8 <=? length (List.filter isDigit (CPF r)))%nat eqn:E8.
  - apply Nat.leb_le in E8.
    destruct (length (List.filter isDigit (CPF r)) =? 0)%nat eqn:E0;
      [apply Nat.eqb_eq in E0; lia | reflexivity].
  - rewrite andb_false_r.
    destruct (10 <=? length (List.filter isDigit (Telefone r)))%nat eqn:E10.
    + apply Nat.leb_le in E10.
      destruct (length (List.filter isDigit (Telefone r)) =? 0)%nat eqn:E0;
        [apply Nat.eqb_eq in E0; lia | reflexivity].
    + now rewrite andb_false_r.
Qed.

(** The key depends on the record through the digits of its national id
    and of its phone only. *)
Lemma keyForClientLike_ext (r r' : Row) :
  List.filter isDigit (CPF r) = List.filter isDigit (CPF r') ->
  List.filter isDigit (Telefone r) = List.filter isDigit (Telefone r') ->
  keyForClientLike r = keyForClientLike r'.
Proof. intros E1 E2. rewrite !keyForClientLike_unfold. cbv zeta. now rewrite E1, E2. Qed.

(** C4. The identity resolver strips the non-digits of the national id and
    returns the id-based key when at least 8 digits remain; otherwise it
    strips the non-digits of the phone and returns the phone-based key when
    at least 10 digits remain; otherwise it returns the empty key.  A record
    whose national id is "123.456.789-00" and one whose national id is
    "12345678900" get the same key. *)
Theorem keyForClientLike_spec (r : Row) :
  let cpf := List.filter isDigit (CPF r) in
  let tel := List.filter isDigit (Telefone r) in
  ((8 <= length cpf)%nat -> keyForClientLike r = lit "cpf:" ++ cpf)
  /\ ((length cpf < 8)%nat -> (10 <= length tel)%nat ->
      keyForClientLike r = lit "tel:" ++ tel)
  /\ ((length cpf < 8)%nat -> (length tel < 10)%nat -> keyForClientLike r = [])
  /\ (forall r' : Row,
        CPF r = lit "123.456.789-00" -> CPF r' = lit "12345678900" ->
        keyForClientLike r = keyForClientLike r'
        /\ keyForClientLike r = lit "cpf:12345678900").
Proof.
  cbv zeta. rewrite keyForClientLike_unfold. cbv zeta.
  split; [| split; [| split]].
  - intros L. apply Nat.leb_le in L. now rewrite L.
  - intros L1 L2. apply Nat.leb_gt in L1. apply Nat.leb_le in L2.
    now rewrite L1, L2.
  - intros L1 L2. apply Nat.leb_gt in L1, L2. now rewrite L1, L2.
  - intros r' E1 E2. rewrite keyForClientLike_unfold. cbv zeta.
    rewrite E1, E2. split; reflexivity.
Qed.

End IdentityFacts.

(** The resolver on four sample records: a formatted national id, the same
    digits unformatted, a short id with a full phone, a short id with a short
    phone. *)
Lemma keyForClientLike_spec_witness :
  let H := RefHost.brt in
  let a := Sample.row "1" "123.456.789-00" "Ana" "" "(11) 98765-4321" "" in
  let b := Sample.row "2" "12345678900" "Ana" "" "" "" in
  let c := Sample.row "3" "123" "Bia" "" "(11) 98765-4321" "" in
  let d := Sample.row "4" "123" "Caio" "" "98765-4321" "" in
  keyForClientLike a = lit "cpf:12345678900"
  /\ keyForClientLike c = lit "tel:11987654321"
  /\ keyForClientLike d = []
  /\ keyForClientLike a = keyForClientLike b.
Proof.
  intros H a b c d.
  split; [| split; [| split]].
  - apply (proj1 (keyForClientLike_spec a)). vm_compute. lia.
  - apply (proj1 (proj2 (keyForClientLike_spec c))); vm_compute; lia.
  - apply (proj1 (proj2 (proj2 (keyForClientLike_spec d)))); vm_compute; lia.
  - apply (proj2 (proj2 (proj2 (keyForClientLike_spec a))) b); reflexivity.
Defined.

(** ** The promise store *)

Section StoreFacts.
Context `{Host}.

(** C10. Upserting a payload under [k] leaves the payload of every other
    key unchanged and stores the payload under [k]; upserting the null
    payload under [k] removes the entry of [k] and leaves every other key
    unchanged. *)
Theorem upsertPromiseByKey_frame
    (prev : gmap jsstring Promise.payload) (k : jsstring) (p : Promise.payload) :
  (forall k', k' <> k ->
     upsertPromiseByKey k (Some p) prev !! k' = prev !! k'
     /\ upsertPromiseByKey k None prev !! k' = prev !! k')
  /\ upsertPromiseByKey k (Some p) prev !! k = Some p
  /\ upsertPromiseByKey k None prev !! k = None.
Proof.
  unfold upsertPromiseByKey. cbv zeta. split; [| split].
  - intros k' Hne. split.
    + apply lookup_insert_ne. congruence.
    + apply lookup_delete_ne. congruence.
  - apply lookup_insert_eq.
  - apply lookup_delete_eq.
Qed.

End StoreFacts.

(** Writing or removing Ana's promise leaves Bia's as it was. *)
Lemma upsertPromiseByKey_frame_witness :
  let H := RefHost.brt in
  let p := Sample.promise "2024-04-01T03:00:00.000Z" in
  upsertPromiseByKey Sample.keyAna (Some p) Sample.store !! Sample.keyBia
  = Sample.store !! Sample.keyBia
  /\ upsertPromiseByKey Sample.keyAna None Sample.store !! Sample.keyBia
     = Sample.store !! Sample.keyBia.
Proof.
  intros H p.
  apply (proj1 (upsertPromiseByKey_frame Sample.store Sample.keyAna p) Sample.keyBia).
  intros E. vm_compute in E. discriminate E.
Defined.

(** ** Messaging link *)

Section WhatsFacts.
Context `{Host}.

(** C9. The link builder returns a link exactly when the normalised phone
    (its digits, with "55" prepended unless they already start with "55")
    has at least 12 digits; the link is then the wa.me address of that
    number with the encoded message; otherwise the result is the empty
    string. *)
Theorem buildWhatsLinkBR_spec (phone message : jsstring) :
  let d := List.filter isDigit phone in
  let e164 := if startsWith (lit "55") d then d else lit "55" ++ d in
  (buildWhatsLinkBR (VStr phone) message <> [] <-> (12 <= length e164)%nat)
  /\ ((12 <= length e164)%nat ->
      buildWhatsLinkBR (VStr phone) message
      = lit "https://wa.me/" ++ e164 ++ lit "?text=" ++ encodeURIComponent message)
  /\ ((length e164 < 12)%nat -> buildWhatsLinkBR (VStr phone) message = []).
Proof.
  cbv zeta. unfold buildWhatsLinkBR. rewrite onlyDigits_str. cbv zeta.
  unfold withCountryCode.
  set (e := if startsWith (lit "55") (List.filter isDigit phone)
            then List.filter isDigit phone
            else lit "55" ++ List.filter isDigit phone).
  destruct (length e <? 12)%nat eqn:L.
  - apply Nat.ltb_lt in L. split; [| split].
    + split; [congruence | lia].
    + lia.
    + reflexivity.
  - apply Nat.ltb_ge in L. split; [| split].
    + split; [intros _; exact L | intros _; discriminate].
    + reflexivity.
    + lia.
Qed.

End WhatsFacts.

(** An 11-digit phone gets its link, an 8-digit phone gets none. *)
Lemma buildWhatsLinkBR_spec_witness :
  let H := RefHost.brt in
  buildWhatsLinkBR (VStr (lit "(11) 98765-4321")) (lit "Oi Ana")
  = lit "https://wa.me/5511987654321?text=Oi%20Ana"
  /\ buildWhatsLinkBR (VStr (lit "98765-4321")) (lit "Oi Ana") = [].
Proof.
  intros H. split.
  - exact (proj1 (proj2 (buildWhatsLinkBR_spec (lit "(11) 98765-4321") (lit "Oi Ana")))
             ltac:(vm_compute; lia)).
  - apply (proj2 (proj2 (buildWhatsLinkBR_spec (lit "98765-4321") (lit "Oi Ana")))).
    vm_compute. lia.
Defined.

(** ** Due-date classification *)

Lemma monthOfDay_range (n : Z) : 0 <= RefHost.monthOfDay n <= 11.
Proof.
  unfold RefHost.monthOfDay. cbv zeta.
  repeat match goal with
         | |- context [if ?c then _ else _] => destruct c
         end; lia.
Qed.

Lemma dayOfFields_in_year (y m d : Z) :
  0 <= m <= 11 ->
  RefHost.dayOfFields y m d
  = RefHost.dayFromYear y + RefHost.monthStart m (RefHost.leapDay y) + d - 1.
Proof.
  intros R. unfold RefHost.dayOfFields. cbv zeta.
  rewrite (Z.div_small m 12), (Z.mod_small m 12), Z.add_0_r by lia.
  reflexivity.
Qed.

(** The calendar of the reference hosts: the fields of a day give the day
    back. *)
Lemma dayOfFields_fields (n : Z) :
  RefHost.dayOfFields (RefHost.yearOfDay n) (RefHost.monthOfDay n)
    (RefHost.dateOfDay n) = n.
Proof.
  rewrite dayOfFields_in_year by apply monthOfDay_range.
  unfold RefHost.dateOfDay. cbv zeta. lia.
Qed.

Lemma fixed_atOffset (off t : Z) : atOffset (H := RefHost.fixed off) off t.
Proof.
  unfold atOffset.
  cbn [newDate getFullYear getMonth getDate RefHost.fixed RefHost.zone].
  now rewrite dayOfFields_fields.
Qed.

Lemma fixed_ZoneLaws (off : Z) : ZoneLaws (RefHost.fixed off).
Proof.
  split. intros t _. rewrite (fixed_atOffset off t).
  pose proof (Z.mul_div_le (t + off) MS_DAY ltac:(reflexivity)).
  lia.
Qed.

Section ClassifierFacts.
Context `{Host}.
Variable today : Z.

Lemma paid_not_due_today (r : Row) : isPago r = true -> venceHoje today r = false.
Proof.
  intros P. unfold venceHoje. destruct (vencDate r); [| reflexivity].
  rewrite P. apply andb_false_r.
Qed.

Lemma paid_not_overdue (r : Row) : isPago r = true -> atrasado today r = false.
Proof.
  intros P. unfold atrasado. destruct (vencDate r); [| reflexivity].
  rewrite P. apply andb_false_r.
Qed.

(** A date that [sameDay] accepts beside today is valid, has today's year
    and opens at today's midnight. *)
Lemma sameDay_true (a : option (option Z)) :
  sameDay a (Some (Some today)) = true ->
  exists t, a = Some (Some t)
            /\ getFullYear t = getFullYear today
            /\ newDate (getFullYear t) (getMonth t) (getDate t) = baseHoje today.
Proof.
  destruct a as [[t |] |]; try discriminate.
  unfold sameDay. intros E.
  apply andb_prop in E as [E D]. apply andb_prop in E as [Y M].
  apply Z.eqb_eq in Y, M, D.
  exists t. split; [reflexivity |]. split; [exact Y |].
  unfold baseHoje. now rewrite Y, M, D.
Qed.

(** A date on today's calendar day is not before today's midnight. *)
Lemma same_day_not_before `{!ZoneLaws H} (t : Z) :
  100 <= getFullYear t ->
  newDate (getFullYear t) (getMonth t) (getDate t) = baseHoje today ->
  dateLt (Some t) (baseHoje today) = false.
Proof.
  intros Y E. unfold dateLt. rewrite <- E.
  apply Z.ltb_ge. now apply newDate_le.
Qed.

Lemma due_today_not_overdue `{!ZoneLaws H} (r : Row) :
  100 <= getFullYear today ->
  venceHoje today r = true -> atrasado today r = false.
Proof.
  intros Y. unfold venceHoje, atrasado.
  destruct (vencDate r) as [d |]; [| discriminate].
  intros V. apply andb_prop in V as [S _].
  apply sameDay_true in S as (t & E & Yt & M). injection E as ->.
  rewrite (same_day_not_before t); [reflexivity | lia | exact M].
Qed.

(** C5. A paid record is neither due today nor overdue, whatever its due
    date; and no record, paid or not, is both due today and overdue.  The
    second part rests on the midnight that opens a date not being after the
    instants of that date, for a clock that reads a year from 100 on. *)
Theorem classification_exclusive (r : Row) :
  (isPago r = true -> venceHoje today r = false /\ atrasado today r = false)
  /\ (ZoneLaws H -> 100 <= getFullYear today ->
      venceHoje today r && atrasado today r = false).
Proof.
  split.
  - intros P. split; [now apply paid_not_due_today | now apply paid_not_overdue].
  - intros L Y. destruct (venceHoje today r) eqn:V; [| reflexivity].
    simpl. now apply due_today_not_overdue.
Qed.

Lemma daysLate_valid (r : Row) (t : Z) :
  vencDate r = Some (Some t) ->
  daysLate today r
  = Some ((baseHoje today - newDate (getFullYear t) (getMonth t) (getDate t))
          / MS_DAY).
Proof. intros V. unfold daysLate. now rewrite V. Qed.

(** C6, as the code has it.  A record with no due date is 0 days late, and
    one whose due date is unreadable has no number of days.  A due date on
    today's calendar day gives 0 days late, is never overdue, and is due
    today exactly when the record is not paid.  For a readable due date the
    days late are the floor of the distance between today's local midnight
    and the due date's, over 24 hours.  So a due date whose local day is the
    one before today's gives 1 day late when the offset from UTC on the due
    date is today's or larger, which covers the day of 25 hours on which the
    clocks go back, and 0 days late when it is smaller, the day of 23 hours
    on which they go forward. *)
Theorem daysLate_boundaries (r : Row) :
  (VencimentoISO r = [] -> daysLate today r = Some 0)
  /\ (vencDate r = Some None -> daysLate today r = None)
  /\ (sameDay (vencDate r) (Some (Some today)) = true ->
      daysLate today r = Some 0)
  /\ (forall t, vencDate r = Some (Some t) ->
        exists n, daysLate today r = Some n
                  /\ n * MS_DAY
                     <= baseHoje today
                        - newDate (getFullYear t) (getMonth t) (getDate t)
                     < (n + 1) * MS_DAY)
  /\ (forall t offT offD, atOffset offT t -> atOffset offD today ->
        vencDate r = Some (Some t) ->
        (t + offT) / MS_DAY + 1 = (today + offD) / MS_DAY ->
        - MS_DAY < offT - offD < MS_DAY ->
        daysLate today r = Some (if offD <=? offT then 1 else 0))
  /\ (ZoneLaws H -> 100 <= getFullYear today ->
      sameDay (vencDate r) (Some (Some today)) = true ->
      atrasado today r = false /\ venceHoje today r = negb (isPago r)).
Proof.
  split; [| split; [| split; [| split; [| split]]]].
  - intros E. unfold daysLate, vencDate. now rewrite E.
  - intros V. unfold daysLate. now rewrite V.
  - intros S. apply sameDay_true in S as (t & V & _ & M).
    rewrite (daysLate_valid r t V), M, Z.sub_diag. reflexivity.
  - intros t V. rewrite (daysLate_valid r t V).
    eexists. split; [reflexivity |].
    set (diff := baseHoje today - newDate (getFullYear t) (getMonth t) (getDate t)).
    pose proof (Z.mul_div_le diff MS_DAY ltac:(reflexivity)) as Lo.
    pose proof (Z.mul_succ_div_gt diff MS_DAY ltac:(reflexivity)) as Hi.
    lia.
  - intros t offT offD Ft Fd V E B. rewrite (daysLate_valid r t V).
    unfold baseHoje. unfold atOffset in Ft, Fd. rewrite Ft, Fd, <- E. f_equal.
    replace (((t + offT) / MS_DAY + 1) * MS_DAY - offD
             - ((t + offT) / MS_DAY * MS_DAY - offT))
      with (MS_DAY + (offT - offD)) by lia.
    destruct (offD <=? offT) eqn:O.
    + apply Z.leb_le in O. symmetry. apply Z.div_unique with (r := offT - offD).
      * left. lia.
      * lia.
    + apply Z.leb_gt in O. symmetry.
      apply Z.div_unique with (r := MS_DAY + (offT - offD)).
      * left. lia.
      * lia.
  - intros L Y S. pose proof S as S'.
    apply sameDay_true in S' as (t & V & Yt & M).
    split.
    + unfold atrasado. rewrite V, (same_day_not_before t); [reflexivity | lia | exact M].
    + unfold venceHoje. rewrite V in S |- *. now rewrite S.
Qed.

End ClassifierFacts.

(** Dora has paid: two weeks past her due date she is neither due today nor
    overdue.  Edu, who is due today, is not both due today and overdue. *)
Lemma classification_exclusive_witness :
  let H := RefHost.brt in
  let dora := Sample.row "4" "" "Dora" "2024-03-01T03:00:00.000Z" "(31) 93333-4444" "Pago" in
  let edu := Sample.row "5" "" "Edu" "2024-03-15T03:00:00.000Z" "(41) 95555-6666" "" in
  (venceHoje Sample.noon15March dora = false
   /\ atrasado Sample.noon15March dora = false)
  /\ venceHoje Sample.noon15March edu && atrasado Sample.noon15March edu = false.
Proof.
  intros H dora edu. split.
  - apply (proj1 (classification_exclusive Sample.noon15March dora)).
    vm_compute. reflexivity.
  - apply (proj2 (classification_exclusive Sample.noon15March edu)).
    + apply fixed_ZoneLaws.
    + vm_compute. discriminate.
Defined.

(** C6, as the claim words it, fails twice.  A paid record due today is 0
    days late and is not classified as due today.  In New York on 11 March
    2024, the day after the clocks went forward, a record due on 10 March is
    overdue and 0 days late: the two local midnights are 23 hours apart. *)
Lemma daysLate_claim_counterexample :
  (let H := RefHost.brt in
   let gil := Sample.row "6" "" "Gil" "2024-03-15T03:00:00.000Z" "(11) 97777-8888" "Pago" in
   daysLate Sample.noon15March gil = Some 0
   /\ sameDay (vencDate gil) (Some (Some Sample.noon15March)) = true
   /\ venceHoje Sample.noon15March gil = false)
  /\
  (let H := RefHost.newYork in
   let hugo := Sample.row "7" "" "Hugo" "2024-03-10T05:00:00.000Z" "(11) 96666-7777" "" in
   let due := 1710046800000 in
   let today := Sample.noon11March in
   vencDate hugo = Some (Some due)
   /\ (getFullYear due, getMonth due, getDate due) = (2024, 2, 10)
   /\ (getFullYear today, getMonth today, getDate today) = (2024, 2, 11)
   /\ baseHoje today - newDate 2024 2 10 = 23 * 3600000
   /\ atrasado today hugo = true
   /\ daysLate today hugo = Some 0).
Proof. vm_compute. repeat split; reflexivity. Qed.

(** On 15 March at UTC-03:00, a due date of 14 March is 1 day late; a due
    date of 15 March is 0 days late, not overdue, and due today if unpaid.
    In New York on 4 November 2024, the day after the clocks went back, a
    due date of 3 November is 1 day late: the two local midnights are 25
    hours apart. *)
Lemma daysLate_boundaries_witness :
  (let H := RefHost.brt in
   let ana := Sample.row "1" "" "Ana" "2024-03-14T03:00:00.000Z" "(11) 98765-4321" "" in
   let edu := Sample.row "5" "" "Edu" "2024-03-15T03:00:00.000Z" "(41) 95555-6666" "" in
   daysLate Sample.noon15March ana = Some 1
   /\ daysLate Sample.noon15March edu = Some 0
   /\ atrasado Sample.noon15March edu = false
   /\ venceHoje Sample.noon15March edu = negb (isPago edu))
  /\
  (let H := RefHost.newYorkAutumn in
   let ivo := Sample.row "8" "" "Ivo" "2024-11-03T04:00:00.000Z" "(11) 95555-0000" "" in
   let today := 1730739600000 in
   baseHoje today - newDate 2024 10 3 = 25 * 3600000
   /\ daysLate today ivo = Some 1).
Proof.
  split.
  - intros H ana edu.
    split; [| split].
    + apply (proj1 (proj2 (proj2 (proj2 (proj2
               (@daysLate_boundaries H Sample.noon15March ana)))))
               1710385200000 (-10800000) (-10800000)
               (fixed_atOffset _ _) (fixed_atOffset _ _));
        vm_compute; try reflexivity. split; reflexivity.
    + apply (proj1 (proj2 (proj2 (@daysLate_boundaries H Sample.noon15March edu))));
        vm_compute; reflexivity.
    + apply (proj2 (proj2 (proj2 (proj2 (proj2
               (@daysLate_boundaries H Sample.noon15March edu)))))
               (fixed_ZoneLaws _)); [vm_compute; discriminate | vm_compute; reflexivity].
  - intros H ivo today. split; [vm_compute; reflexivity |].
    apply (proj1 (proj2 (proj2 (proj2 (proj2 (@daysLate_boundaries H today ivo)))))
             1730606400000 (-14400000) (-18000000));
      vm_compute; try reflexivity. split; reflexivity.
Defined.

(** ** Bulk selection *)

Section BulkFacts.
Context `{Host}.
Variable today : Z.

Lemma phone_kept_iff (d : jsstring) :
  negb (is_empty d) && (10 <=? length d)%nat = negb (length d <? 10)%nat.
Proof.
  rewrite is_empty_length.
  destruct (length d) as [| n]; [reflexivity |].
  simpl negb at 1. rewrite andb_true_l.
  destruct (10 <=? S n)%nat eqn:E.
  - apply Nat.leb_le in E. symmetry. apply negb_true_iff, Nat.ltb_ge. exact E.
  - apply Nat.leb_gt in E. symmetry. apply negb_false_iff, Nat.ltb_lt. exact E.
Qed.

Lemma bulkPhoneList_cons (r : Row) (rs : list Row) :
  bulkPhoneList (r :: rs)
  = match Spec.normalizePhone (Telefone r) with
    | Some phone => phone :: bulkPhoneList rs
    | None => bulkPhoneList rs
    end.
Proof.
  unfold bulkPhoneList, Spec.normalizePhone. simpl List.map. simpl List.filter.
  rewrite onlyDigits_str, phone_kept_iff.
  destruct (length (List.filter isDigit (Telefone r)) <? 10)%nat; reflexivity.
Qed.

Lemma bulkFilter_breach (r : Row) :
  bulkFilter today QUEBRAS r = Spec.isBreach today r.
Proof.
  unfold bulkFilter, Spec.isBreach.
  destruct (atrasado today r), (numGt (daysLate today r) 5), (isPago r); reflexivity.
Qed.

Lemma bulkPhoneList_breach (view : list Row) :
  bulkPhoneList (List.filter (bulkFilter today QUEBRAS) view)
  = Spec.selectBreachPhones today view.
Proof.
  induction view as [| r view IH]; [reflexivity |].
  cbn [List.filter Spec.selectBreachPhones]. rewrite bulkFilter_breach.
  destruct (Spec.isBreach today r); [| exact IH].
  rewrite bulkPhoneList_cons, IH. reflexivity.
Qed.

Lemma existsb_breach (view : list Row) :
  existsb (bulkFilter today QUEBRAS) view = existsb (Spec.isBreach today) view.
Proof.
  induction view as [| r view IH]; [reflexivity |].
  cbn [existsb]. now rewrite bulkFilter_breach, IH.
Qed.

Lemma filter_nil_existsb {A : Type} (f : A -> bool) (l : list A) :
  match List.filter f l with [] => true | _ => false end = negb (existsb f l).
Proof.
  induction l as [| a l IH]; [reflexivity |].
  simpl. destruct (f a); [reflexivity | exact IH].
Qed.

Lemma copyBulk_breach (view : list Row) :
  copyBulkFromCurrentView today view QUEBRAS
  = if existsb (Spec.isBreach today) view
    then Some (join [10%N] (Spec.selectBreachPhones today view))
    else None.
Proof.
  unfold copyBulkFromCurrentView, bulkPhones.
  rewrite <- bulkPhoneList_breach.
  rewrite <- existsb_breach.
  pose proof (filter_nil_existsb (bulkFilter today QUEBRAS) view) as E.
  destruct view as [| r view]; [reflexivity |].
  destruct (List.filter (bulkFilter today QUEBRAS) (r :: view)) eqn:F.
  - apply (f_equal negb) in E. rewrite negb_involutive in E. simpl negb in E.
    now rewrite <- E.
  - apply (f_equal negb) in E. rewrite negb_involutive in E. simpl negb in E.
    now rewrite <- E.
Qed.

End BulkFacts.

(** C7. In the mode for breaches, bulk selection yields the phones of the
    records of the view that are overdue, not paid and more than 5 days
    late, in the order of the view and one entry per record: each phone is
    reduced to its digits, dropped if fewer than 10 remain, and given the
    prefix "55" unless its digits start with it.  The text copied is that
    list joined by line feeds, and nothing is copied when no record matches.
    On the sample view of five clients, of which Ana and Caio alone are
    overdue and unpaid, 6 and 10 days late, the two phones come out in that
    order. *)
Theorem bulk_breach_selection `{Host} (today : Z) (view : list Row) :
  bulkPhoneList (List.filter (bulkFilter today QUEBRAS) view)
  = Spec.selectBreachPhones today view
  /\ copyBulkFromCurrentView today view QUEBRAS
     = (if existsb (Spec.isBreach today) view
        then Some (join [10%N] (Spec.selectBreachPhones today view))
        else None)
  /\ (let day := Sample.noon15March in
      let sample := Sample.view (H := RefHost.brt) in
      List.map (fun r => (Nome r, daysLate day r))
        (List.filter (fun r => atrasado day r && negb (isPago r)) sample)
      = [(lit "Ana", Some 6); (lit "Caio", Some 10)]
      /\ Spec.selectBreachPhones day sample
         = [lit "5511987654321"; lit "5521912345678"]
      /\ copyBulkFromCurrentView day sample QUEBRAS
         = Some (lit "5511987654321" ++ [10%N] ++ lit "5521912345678")).
Proof.
  split; [apply bulkPhoneList_breach | split; [apply copyBulk_breach |]].
  vm_compute. repeat split; reflexivity.
Qed.

(** ** Import of sheet rows *)

Section ImportFacts.
Context `{Host}.

Lemma length_withIdFrom (i : nat) (mapped : list Row) :
  length (withIdFrom i mapped) = length mapped.
Proof.
  revert i. induction mapped as [| r rest IH]; intros i; simpl; [| rewrite IH];
    reflexivity.
Qed.

Lemma hasIdentity_false (r : Row) :
  hasIdentity r = false <-> CPF r = [] /\ Nome r = [] /\ Telefone r = [].
Proof.
  unfold hasIdentity.
  destruct (CPF r), (Nome r), (Telefone r); simpl; split;
    try discriminate; try tauto; intros (? & ? & ?); discriminate.
Qed.

Lemma importRows_single (raw : RawRow) :
  importRows [raw]
  = if hasIdentity (mapRow raw) then [setId (lit "1") (mapRow raw)] else [].
Proof.
  unfold importRows. cbn [List.map List.filter].
  destruct (hasIdentity (mapRow raw)); reflexivity.
Qed.

Lemma length_importRows (json : list RawRow) :
  length (importRows json)
  = length (List.filter (fun raw => hasIdentity (mapRow raw)) json).
Proof.
  unfold importRows. rewrite length_withIdFrom.
  induction json as [| raw json IH]; [reflexivity |].
  cbn [List.map List.filter].
  destruct (hasIdentity (mapRow raw)); simpl; now rewrite IH.
Qed.

(** C8. A raw row yields no record exactly when its national id, name and
    phone cells are all empty once converted to strings and trimmed; a row
    with one of them non-empty yields its record, whatever its amount and
    due-date cells hold; in a batch, the records are as many as the rows
    with one of the three non-empty. *)
Theorem row_survival (raw : RawRow) :
  let cpf := trim (ToString (nullishOrEmpty (getBy isCpfKey raw))) in
  let nome := trim (ToString (nullishOrEmpty (getBy isNomeKey raw))) in
  let tel := trim (ToString (nullishOrEmpty (getBy isTelefoneKey raw))) in
  (importRows [raw] = [] <-> cpf = [] /\ nome = [] /\ tel = [])
  /\ (~ (cpf = [] /\ nome = [] /\ tel = []) ->
      importRows [raw] = [setId (lit "1") (mapRow raw)]
      /\ CPF (mapRow raw) = cpf /\ Nome (mapRow raw) = nome
      /\ Telefone (mapRow raw) = tel)
  /\ (forall json : list RawRow,
        length (importRows json)
        = length (List.filter
                    (fun raw =>
                       negb (is_empty (trim (ToString (nullishOrEmpty (getBy isCpfKey raw)))))
                       || negb (is_empty (trim (ToString (nullishOrEmpty (getBy isNomeKey raw)))))
                       || negb (is_empty (trim (ToString (nullishOrEmpty (getBy isTelefoneKey raw))))))
                    json)).
Proof.
  cbv zeta. rewrite importRows_single.
  pose proof (hasIdentity_false (mapRow raw)) as HF. cbn [CPF Nome Telefone mapRow] in HF.
  unfold trimmedString in HF.
  split; [| split].
  - destruct (hasIdentity (mapRow raw)).
    + split; [discriminate |]. intros E. apply HF in E. discriminate E.
    + split; [intros _; now apply HF | reflexivity].
  - intros N. destruct (hasIdentity (mapRow raw)).
    + repeat split.
    + exfalso. apply N. now apply HF.
  - intros json. apply length_importRows.
Qed.

End ImportFacts.

(** A row of blanks is dropped although it has an amount and a date; a row
    with a name alone is kept although its amount and date cannot be read. *)
Lemma row_survival_witness :
  let H := RefHost.brt in
  let blank := Sample.raw " " "" "  " "10" "15/03/2024" in
  let named := Sample.raw "" "Ana" "" "a combinar" "sem data" in
  importRows [blank] = []
  /\ importRows [named] = [setId (lit "1") (mapRow named)]
  /\ VencimentoISO (mapRow named) = [].
Proof.
  intros H blank named. split; [| split].
  - apply (proj2 (proj1 (row_survival blank))). vm_compute. repeat split; reflexivity.
  - apply (proj1 (proj2 (row_survival named))). vm_compute.
    intros (_ & E & _). discriminate E.
  - reflexivity.
Defined.

(** ** Header detection *)

Section HeaderFacts.
Context `{Host}.

Lemma scanCell_or (cpfOk nomeOk : bool) (cell : JsVal) :
  scanCell (cpfOk, nomeOk) cell = (cpfOk || looksCpf cell, nomeOk || looksNome cell).
Proof.
  unfold scanCell. destruct cpfOk, nomeOk, (looksCpf cell), (looksNome cell);
    reflexivity.
Qed.

Lemma fold_scanCell (row : list JsVal) (cpfOk nomeOk : bool) :
  fold_left scanCell row (cpfOk, nomeOk)
  = (cpfOk || existsb looksCpf row, nomeOk || existsb looksNome row).
Proof.
  revert cpfOk nomeOk. induction row as [| cell row IH]; intros cpfOk nomeOk.
  - simpl. now rewrite !orb_false_r.
  - cbn [fold_left existsb]. rewrite scanCell_or, IH, !orb_assoc. reflexivity.
Qed.

Lemma hasCpfAndNome_existsb (row : list JsVal) :
  hasCpfAndNome row = existsb looksCpf row && existsb looksNome row.
Proof. unfold hasCpfAndNome. now rewrite fold_scanCell. Qed.

Lemma scanRows_none (test : list JsVal -> bool) (aoa : list (list JsVal))
    (n i : nat) :
  (forall j, (i <= j < i + n)%nat -> test (default [] (aoa !! j)) = false) ->
  scanRows test aoa i n = None.
Proof.
  revert i. induction n as [| n IH]; intros i F; [reflexivity |].
  cbn [scanRows]. rewrite (F i) by lia. apply IH. intros j Hj. apply F. lia.
Qed.

Lemma scanRows_spec (test : list JsVal -> bool) (aoa : list (list JsVal))
    (n i : nat) :
  match scanRows test aoa i n with
  | Some k =>
      (i <= k < i + n)%nat /\ test (default [] (aoa !! k)) = true
      /\ forall j, (i <= j < k)%nat -> test (default [] (aoa !! j)) = false
  | None => forall j, (i <= j < i + n)%nat -> test (default [] (aoa !! j)) = false
  end.
Proof.
  revert i. induction n as [| n IH]; intros i; cbn [scanRows].
  - intros j Hj. lia.
  - destruct (test (default [] (aoa !! i))) eqn:T.
    + split; [lia | split; [exact T | intros j Hj; lia]].
    + specialize (IH (S i)). destruct (scanRows test aoa (S i) n) as [k |].
      * destruct IH as (R & Tk & F). split; [lia | split; [exact Tk |]].
        intros j Hj. destruct (Nat.eq_dec j i) as [-> | Ne]; [exact T |].
        apply F. lia.
      * intros j Hj. destruct (Nat.eq_dec j i) as [-> | Ne]; [exact T |].
        apply IH. lia.
Qed.

(** C3. When a row among the first 25 holds both a cell that looks like a
    national id label and a cell that looks like a name label, header
    detection returns the index of the first such row; when there is none,
    it returns the index of the first row among the first 25 with at least
    3 non-empty cells; otherwise it returns 0. *)
Theorem findHeaderRow_spec (aoa : list (list JsVal)) :
  let window := Nat.min 25 (length aoa) in
  let row i := default [] (aoa !! i) in
  let labelled i := existsb looksCpf (row i) && existsb looksNome (row i) in
  let filled i := (3 <=? filledCells (row i))%nat in
  let h := findHeaderRow aoa in
  (forall i, (i < window)%nat -> labelled i = true ->
     (h <= i)%nat /\ labelled h = true
     /\ forall j, (j < h)%nat -> labelled j = false)
  /\ ((forall j, (j < window)%nat -> labelled j = false) ->
      forall i, (i < window)%nat -> filled i = true ->
        (h <= i)%nat /\ filled h = true
        /\ forall j, (j < h)%nat -> filled j = false)
  /\ ((forall j, (j < window)%nat -> labelled j = false /\ filled j = false) ->
      h = O).
Proof.
  cbv zeta. unfold findHeaderRow. cbv zeta.
  set (window := Nat.min 25 (length aoa)).
  pose proof (scanRows_spec hasCpfAndNome aoa window 0) as S1.
  pose proof (scanRows_spec hasThreeFilled aoa window 0) as S2.
  split; [| split].
  - intros i Hi L.
    destruct (scanRows hasCpfAndNome aoa 0 window) as [k |].
    + destruct S1 as (R & T & F). rewrite hasCpfAndNome_existsb in T.
      split; [| split; [exact T |]].
      * destruct (Nat.le_gt_cases k i) as [Le | Gt]; [exact Le |].
        specialize (F i ltac:(lia)). rewrite hasCpfAndNome_existsb in F.
        congruence.
      * intros j Hj. specialize (F j ltac:(lia)).
        now rewrite hasCpfAndNome_existsb in F.
    + specialize (S1 i ltac:(lia)). rewrite hasCpfAndNome_existsb in S1.
      congruence.
  - intros NL i Hi T.
    rewrite (scanRows_none hasCpfAndNome aoa window 0).
    + destruct (scanRows hasThreeFilled aoa 0 window) as [k |].
      * destruct S2 as (R & Tk & F). split; [| split; [exact Tk |]].
        -- destruct (Nat.le_gt_cases k i) as [Le | Gt]; [exact Le |].
           specialize (F i ltac:(lia)). unfold hasThreeFilled in F. congruence.
        -- intros j Hj. apply F. lia.
      * specialize (S2 i ltac:(lia)). unfold hasThreeFilled in S2. congruence.
    + intros j Hj. rewrite hasCpfAndNome_existsb. apply NL. lia.
  - intros N.
    rewrite (scanRows_none hasCpfAndNome aoa window 0).
    + rewrite (scanRows_none hasThreeFilled aoa window 0); [reflexivity |].
      intros j Hj. apply N. lia.
    + intros j Hj. rewrite hasCpfAndNome_existsb. apply N. lia.
Qed.

End HeaderFacts.

(** The header of the sample sheet is found behind a banner and a blank row;
    a sheet with one short row falls back to row 0. *)
Lemma findHeaderRow_spec_witness :
  let H := RefHost.brt in
  let h := findHeaderRow Sample.sheet in
  let p := findHeaderRow Sample.plainSheet in
  ((h <= 2)%nat
   /\ existsb looksCpf (default [] (Sample.sheet !! h))
      && existsb looksNome (default [] (Sample.sheet !! h)) = true
   /\ forall j, (j < h)%nat ->
        existsb looksCpf (default [] (Sample.sheet !! j))
        && existsb looksNome (default [] (Sample.sheet !! j)) = false)
  /\ ((p <= 1)%nat
      /\ (3 <=? filledCells (default [] (Sample.plainSheet !! p)))%nat = true
      /\ forall j, (j < p)%nat ->
           (3 <=? filledCells (default [] (Sample.plainSheet !! j)))%nat = false)
  /\ findHeaderRow Sample.bareSheet = O.
Proof.
  intros H h p. split; [| split].
  - apply (proj1 (findHeaderRow_spec Sample.sheet) 2%nat).
    + vm_compute. lia.
    + vm_compute. reflexivity.
  - apply (proj1 (proj2 (findHeaderRow_spec Sample.plainSheet))) with (i := 1%nat).
    + intros j Hj.
      assert (j = 0 \/ j = 1)%nat as [-> | ->] by (vm_compute in Hj; lia);
        vm_compute; reflexivity.
    + vm_compute. lia.
    + vm_compute. reflexivity.
  - apply (proj2 (proj2 (findHeaderRow_spec Sample.bareSheet))).
    intros j Hj. assert (j = O) as -> by (vm_compute in Hj; lia).
    vm_compute. split; reflexivity.
Defined.

(** ** The working set *)

Section WorkingSetFacts.
Context `{Host}.

Lemma keyForClientLike_setPromessaISO (iso : jsstring) (r : Row) :
  keyForClientLike (setPromessaISO iso r) = keyForClientLike r.
Proof. reflexivity. Qed.

Lemma mergePromise_idempotent (store : gmap jsstring Promise.payload) (r : Row) :
  mergePromise store (mergePromise store r) = mergePromise store r.
Proof.
  unfold mergePromise at 2.
  destruct (if negb (is_empty (keyForClientLike r))
            then store !! keyForClientLike r else None) as [p |] eqn:E;
    [destruct (is_empty (Promise.promiseISO p)) eqn:I |].
  - unfold mergePromise. rewrite E, I. reflexivity.
  - unfold mergePromise. rewrite keyForClientLike_setPromessaISO, E, I.
    reflexivity.
  - unfold mergePromise. rewrite E. reflexivity.
Qed.

Lemma mergePromisesIntoRows_idempotent (store : gmap jsstring Promise.payload)
    (inRows : list Row) :
  mergePromisesIntoRows store (mergePromisesIntoRows store inRows)
  = mergePromisesIntoRows store inRows.
Proof.
  unfold mergePromisesIntoRows. rewrite List.map_map.
  apply List.map_ext. intros r. apply mergePromise_idempotent.
Qed.

Lemma mergePromise_id (store : gmap jsstring Promise.payload) (r : Row) :
  _id (mergePromise store r) = _id r.
Proof.
  unfold mergePromise.
  destruct (if negb (is_empty (keyForClientLike r))
            then store !! keyForClientLike r else None) as [p |];
    [destruct (is_empty (Promise.promiseISO p)) |]; reflexivity.
Qed.

Lemma mergePromise_source (store : gmap jsstring Promise.payload) (r : Row) :
  _source (mergePromise store r) = _source r.
Proof.
  unfold mergePromise.
  destruct (if negb (is_empty (keyForClientLike r))
            then store !! keyForClientLike r else None) as [p |];
    [destruct (is_empty (Promise.promiseISO p)) |]; reflexivity.
Qed.

(** Merging never removes an overlay: a row whose key has no payload comes
    out as it went in, with the promise date it carried. *)
Lemma mergePromise_keeps_overlay (store : gmap jsstring Promise.payload)
    (r : Row) :
  store !! keyForClientLike r = None ->
  mergePromise store r = r.
Proof.
  intros N. unfold mergePromise. rewrite N.
  now destruct (negb (is_empty (keyForClientLike r))).
Qed.

(** C2. Composing the working set again from unchanged inputs gives the
    same working set.  The composed rows are the manual ones followed by
    the imported ones, each in their own order and marked with their source;
    merging the same promises into them again changes nothing; and loading
    the same sheet rows twice leaves the manual clients and the promises as
    they were and yields the same rows as loading them once. *)
Theorem composeRows_idempotent (manual imported : list Row)
    (store : gmap jsstring Promise.payload) :
  let composed := composeRows manual store imported in
  mergePromisesIntoRows store composed = composed
  /\ List.map _id composed = List.map _id manual ++ List.map _id imported
  /\ List.map _source composed
     = List.map (fun _ => Some (lit "manual")) manual
       ++ List.map (fun _ => Some (lit "excel")) imported
  /\ (forall (json : list RawRow) (s : AppState),
        loadSelectedSheet json (loadSelectedSheet json s) = loadSelectedSheet json s
        /\ manualClients (loadSelectedSheet json s) = manualClients s
        /\ promises (loadSelectedSheet json s) = promises s
        /\ rows (loadSelectedSheet json s)
           = composeRows (manualClients s) (promises s) (importRows json)).
Proof.
  cbv zeta. split; [apply mergePromisesIntoRows_idempotent |].
  unfold composeRows. cbv zeta. unfold mergePromisesIntoRows, manualRows.
  split; [| split].
  - rewrite List.map_map, List.map_app, !List.map_map.
    f_equal; apply List.map_ext; intros r; now rewrite mergePromise_id.
  - rewrite List.map_map, List.map_app, !List.map_map.
    f_equal; apply List.map_ext; intros r; now rewrite mergePromise_source.
  - intros json s. repeat split.
Qed.

End WorkingSetFacts.

(** C1, on the code.  Ana's row is loaded while a promise is stored under
    her key and gets its date.  The promise is then removed: the store no
    longer has her key, and the rows recomputed by [removePromiseByKey]
    still carry the date.  Merging again with the new store keeps it too.
    Only a reload of the sheet, which composes the rows afresh, drops it. *)
Theorem removePromiseByKey_keeps_stale_overlay :
  let H := RefHost.brt in
  let loaded := loadSelectedSheet [Sample.anaRaw] Sample.fresh in
  let removed := removePromiseByKey true Sample.keyAna loaded in
  let iso := lit "2024-03-20T03:00:00.000Z" in
  List.map PromessaISO (rows loaded) = [Some iso]
  /\ List.map keyForClientLike (rows removed) = [Sample.keyAna]
  /\ promises removed !! Sample.keyAna = None
  /\ List.map PromessaISO (rows removed) = [Some iso]
  /\ List.map PromessaISO (mergePromisesIntoRows (promises removed) (rows removed))
     = [Some iso]
  /\ List.map PromessaISO (rows (loadSelectedSheet [Sample.anaRaw] removed))
     = [None].
Proof.
  intros H loaded removed iso.
  split; [vm_compute; reflexivity |].
  split; [vm_compute; reflexivity |].
  split; [apply lookup_delete_eq |].
  split; [vm_compute; reflexivity |].
  split; vm_compute; reflexivity.
Qed.

(** * Further properties of the code *)

(** ** Trimming and normalised text *)

Lemma trimStart_clean (s : jsstring) : startsClean (trimStart s) = true.
Proof.
  induction s as [| c s IH]; [reflexivity |].
  simpl. destruct (isWhite c) eqn:W; [exact IH |]. simpl. now rewrite W.
Qed.

Lemma trimStart_id (s : jsstring) : startsClean s = true -> trimStart s = s.
Proof.
  destruct s as [| c s]; [reflexivity |]. simpl. intros C.
  apply negb_true_iff in C. now rewrite C.
Qed.

Lemma trimStart_white_app (w s : jsstring) :
  forallb isWhite w = true -> trimStart (w ++ s) = trimStart s.
Proof.
  induction w as [| c w IH]; [reflexivity |]. simpl. intros A.
  apply andb_prop in A as [W A]. rewrite W. auto.
Qed.

(** What [trimStart] removes is white, and what it leaves is a suffix. *)
Lemma trimStart_split (s : jsstring) :
  exists w, s = w ++ trimStart s /\ forallb isWhite w = true.
Proof.
  induction s as [| c s (w & E & A)].
  - exists []. split; reflexivity.
  - simpl. destruct (isWhite c) eqn:W.
    + exists (c :: w). split; [simpl; now rewrite <- E | simpl; now rewrite W].
    + exists []. split; reflexivity.
Qed.

Lemma trimEnd_split (s : jsstring) :
  exists w, s = trimEnd s ++ w /\ forallb isWhite w = true.
Proof.
  unfold trimEnd. destruct (trimStart_split (rev s)) as (w & E & A).
  exists (rev w). split.
  - rewrite <- rev_app_distr, <- E. now rewrite rev_involutive.
  - rewrite forallb_forall in A |- *. intros x Hx. apply A.
    now apply in_rev.
Qed.

Lemma trimEnd_clean (s : jsstring) : endsClean (trimEnd s) = true.
Proof. unfold endsClean, trimEnd. rewrite rev_involutive. apply trimStart_clean. Qed.

Lemma trimEnd_id (s : jsstring) : endsClean s = true -> trimEnd s = s.
Proof.
  unfold endsClean, trimEnd. intros C. rewrite trimStart_id by exact C.
  apply rev_involutive.
Qed.

Lemma trimEnd_keeps_start (s : jsstring) :
  startsClean s = true -> startsClean (trimEnd s) = true.
Proof.
  intros C. destruct (trimEnd_split s) as (w & E & _).
  destruct (trimEnd s) as [| c t]; [reflexivity |].
  rewrite E in C. exact C.
Qed.

Lemma trim_clean (s : jsstring) :
  startsClean (trim s) = true /\ endsClean (trim s) = true.
Proof.
  unfold trim. split.
  - apply trimEnd_keeps_start, trimStart_clean.
  - apply trimEnd_clean.
Qed.

Lemma trim_id (s : jsstring) :
  startsClean s = true -> endsClean s = true -> trim s = s.
Proof. intros C E. unfold trim. rewrite (trimStart_id s C). now apply trimEnd_id. Qed.

Lemma trim_idempotent (s : jsstring) : trim (trim s) = trim s.
Proof. destruct (trim_clean s). now apply trim_id. Qed.

(** Text between white margins is what [trim] keeps. *)
Lemma trim_margins (lead core trail : jsstring) :
  forallb isWhite lead = true -> forallb isWhite trail = true ->
  startsClean core = true -> endsClean core = true ->
  trim (lead ++ core ++ trail) = core.
Proof.
  intros L T C E. unfold trim.
  rewrite trimStart_white_app by exact L.
  destruct core as [| c core].
  - simpl. destruct (trimStart_split trail) as (w & Ew & Aw).
    assert (forallb isWhite (rev trail) = true) as R.
    { rewrite forallb_forall in T |- *. intros x Hx. apply T. now apply in_rev. }
    assert (trimStart trail = []) as ->.
    { rewrite <- (app_nil_r trail), trimStart_white_app by exact T. reflexivity. }
    reflexivity.
  - rewrite trimStart_id by exact C. unfold trimEnd.
    rewrite rev_app_distr, trimStart_white_app.
    + rewrite trimStart_id by exact E. apply rev_involutive.
    + rewrite forallb_forall in T |- *. intros x Hx. apply T. now apply in_rev.
Qed.

Lemma forallb_trimStart (P : N -> bool) (s : jsstring) :
  forallb P s = true -> forallb P (trimStart s) = true.
Proof.
  induction s as [| c s IH]; [reflexivity |]. simpl. intros A.
  apply andb_prop in A as [Pc A]. destruct (isWhite c); [auto |].
  simpl. now rewrite Pc, A.
Qed.

Lemma forallb_rev (P : N -> bool) (s : jsstring) :
  forallb P (rev s) = forallb P s.
Proof.
  induction s as [| c s IH]; [reflexivity |].
  simpl. rewrite forallb_app, IH. simpl. now rewrite andb_true_r, andb_comm.
Qed.

Lemma forallb_trim (P : N -> bool) (s : jsstring) :
  forallb P s = true -> forallb P (trim s) = true.
Proof.
  intros A. unfold trim, trimEnd. rewrite forallb_rev.
  apply forallb_trimStart. rewrite forallb_rev. now apply forallb_trimStart.
Qed.

Lemma startsWith_app (p q s : jsstring) :
  startsWith (p ++ q) s = true -> startsWith p s = true.
Proof.
  revert s. induction p as [| a p IH]; intros s; [reflexivity |].
  destruct s as [| b s]; simpl; [discriminate |].
  intros E. apply andb_prop in E as [E1 E2]. rewrite E1. simpl. eauto.
Qed.

Lemma startsWith_refl (s : jsstring) : startsWith s s = true.
Proof. induction s as [| c s IH]; simpl; [| rewrite N.eqb_refl]; auto. Qed.

Lemma includes_refl (s : jsstring) : includes s s = true.
Proof. destruct s; simpl; [reflexivity |]. now rewrite N.eqb_refl, startsWith_refl. Qed.

Lemma includes_app (s p q : jsstring) :
  includes s (p ++ q) = true -> includes s p = true.
Proof.
  induction s as [| c s IH]; simpl.
  - rewrite orb_false_r. intros E. rewrite (startsWith_app p q [] E). reflexivity.
  - intros E. apply orb_prop in E as [E | E].
    + now rewrite (startsWith_app p q (c :: s) E).
    + rewrite (IH E). apply orb_true_r.
Qed.

Lemma startsWith_forallb (P : N -> bool) (p s : jsstring) :
  startsWith p s = true -> forallb P s = true -> forallb P p = true.
Proof.
  revert s. induction p as [| a p IH]; intros s; [reflexivity |].
  destruct s as [| b s]; simpl; [discriminate |].
  intros E A. apply andb_prop in E as [E1 E2]. apply andb_prop in A as [Pb A].
  apply N.eqb_eq in E1. subst b. rewrite Pb. simpl. eauto.
Qed.

(** A text holds only what its code units allow: a pattern with a code
    unit outside [P] is not found in a text within [P]. *)
Lemma includes_forallb (P : N -> bool) (s p : jsstring) :
  includes s p = true -> forallb P s = true -> forallb P p = true.
Proof.
  induction s as [| c s IH]; simpl.
  - rewrite orb_false_r. intros E _. now apply (startsWith_forallb P p []).
  - intros E A. apply orb_prop in E as [E | E].
    + now apply (startsWith_forallb P p (c :: s)).
    + apply andb_prop in A as [_ A]. auto.
Qed.

Lemma spacedOnce_cons (c c' : N) (s : jsstring) :
  spacedOnce (c :: c' :: s)
  = negb (isWhite c && isWhite c') && spacedOnce (c' :: s).
Proof. reflexivity. Qed.

Lemma spacedOnce_tail (c : N) (s : jsstring) :
  spacedOnce (c :: s) = true -> spacedOnce s = true.
Proof.
  destruct s as [| c' s]; [reflexivity |]. rewrite spacedOnce_cons. intros E.
  now apply andb_prop in E as [_ E].
Qed.

Lemma spacedOnce_trimStart (s : jsstring) :
  spacedOnce s = true -> spacedOnce (trimStart s) = true.
Proof.
  induction s as [| c s IH]; [reflexivity |]. intros E.
  simpl trimStart. destruct (isWhite c); [| exact E].
  apply IH. now apply spacedOnce_tail in E.
Qed.

Lemma spacedOnce_app_l (a b : jsstring) :
  spacedOnce (a ++ b) = true -> spacedOnce a = true.
Proof.
  induction a as [| c a IH]; [reflexivity |].
  destruct a as [| c' a]; [reflexivity |].
  cbn [app]. rewrite !spacedOnce_cons. intros E. apply andb_prop in E as [E1 E2].
  rewrite E1. simpl. apply IH. exact E2.
Qed.

Lemma spacedOnce_trim (s : jsstring) : spacedOnce s = true -> spacedOnce (trim s) = true.
Proof.
  intros E. unfold trim.
  destruct (trimEnd_split (trimStart s)) as (w & Ew & _).
  apply (spacedOnce_app_l _ w). rewrite <- Ew. now apply spacedOnce_trimStart.
Qed.

Lemma collapseWhiteFrom_shape (s : jsstring) (inRun : bool) :
  spacedOnce (collapseWhiteFrom inRun s) = true
  /\ (inRun = true -> startsClean (collapseWhiteFrom inRun s) = true).
Proof.
  revert inRun. induction s as [| c s IH]; intros inRun; [split; reflexivity |].
  cbn [collapseWhiteFrom]. destruct (isWhite c) eqn:W.
  - destruct inRun.
    + apply IH.
    + split; [| discriminate].
      destruct (IH true) as [S C]. specialize (C eq_refl).
      destruct (collapseWhiteFrom true s) as [| c' t]; [reflexivity |].
      rewrite spacedOnce_cons. simpl in C. apply negb_true_iff in C.
      now rewrite C, andb_false_r, S.
  - split.
    + destruct (IH false) as [S _].
      destruct (collapseWhiteFrom false s) as [| c' t]; [reflexivity |].
      rewrite spacedOnce_cons. now rewrite W, S.
    + intros _. simpl. now rewrite W.
Qed.

Lemma forallb_collapseWhiteFrom (P : N -> bool) (s : jsstring) (inRun : bool) :
  P 32%N = true -> forallb P s = true ->
  forallb P (collapseWhiteFrom inRun s) = true.
Proof.
  intros P32. revert inRun. induction s as [| c s IH]; intros inRun; [reflexivity |].
  simpl. intros A. apply andb_prop in A as [Pc A].
  destruct (isWhite c); [destruct inRun |]; simpl; rewrite ?P32, ?Pc; simpl;
    apply IH; exact A.
Qed.

(** Within the letters, digits and spaces that [norm] keeps, the only
    white code unit is the space. *)
Lemma white_in_class (c : N) :
  isLowerAlnumSpace c = true -> isWhite c = true -> c = 32%N.
Proof.
  unfold isLowerAlnumSpace, isDigit, isWhite. cbn [existsb]. intros C W.
  repeat match goal with
         | H : (_ || _)%bool = true |- _ => apply orb_prop in H as [H | H]
         | H : (_ && _)%bool = true |- _ => apply andb_prop in H as [? ?]
         | H : (_ =? _)%N = true |- _ => apply N.eqb_eq in H
         | H : (_ <=? _)%N = true |- _ => apply N.leb_le in H
         | H : false = true |- _ => discriminate H
         end; lia.
Qed.

Lemma spacedOnce_no_double_space (s : jsstring) :
  spacedOnce s = true -> includes s (lit "  ") = false.
Proof.
  induction s as [| c s IH]; [reflexivity |]. intros E.
  cbn [includes]. rewrite (IH (spacedOnce_tail c s E)), orb_false_r.
  destruct s as [| c' s]; [cbn; now rewrite andb_false_r |].
  rewrite spacedOnce_cons in E. apply andb_prop in E as [E _].
  apply negb_true_iff in E.
  change (lit "  ") with [32%N; 32%N]. cbn [startsWith].
  destruct (32 =? c)%N eqn:E1; [| reflexivity].
  destruct (32 =? c')%N eqn:E2; [| reflexivity].
  apply N.eqb_eq in E1, E2. subst. discriminate E.
Qed.

Section NormFacts.
Context `{Host}.

Lemma norm_class (v : JsVal) : forallb isLowerAlnumSpace (norm v) = true.
Proof.
  unfold norm. cbv zeta. apply forallb_trim.
  apply forallb_collapseWhiteFrom; [reflexivity |].
  rewrite forallb_forall. intros x Hx. apply in_map_iff in Hx as (c & <- & _).
  destruct (isLowerAlnumSpace c) eqn:C; [exact C | reflexivity].
Qed.

(** X1. Normalised text holds only lower-case ASCII letters, digits and
    spaces, has no space at either end and no two spaces in a row, whatever
    the value and whatever the host's case folding and decomposition do. *)
Theorem norm_shape (v : JsVal) :
  forallb isLowerAlnumSpace (norm v) = true
  /\ trim (norm v) = norm v
  /\ includes (norm v) (lit "  ") = false.
Proof.
  split; [apply norm_class | split].
  - unfold norm. cbv zeta. apply trim_idempotent.
  - apply spacedOnce_no_double_space. unfold norm. cbv zeta.
    apply spacedOnce_trim. apply collapseWhiteFrom_shape.
Qed.

End NormFacts.

Lemma orb_implied (a b : bool) : (a = true -> b = true) -> a || b = b.
Proof. destruct a, b; intros I; try reflexivity. now rewrite I. Qed.

Lemma class_not_combining (s : jsstring) :
  forallb isLowerAlnumSpace s = true ->
  List.filter (fun c => negb (isCombiningMark c)) s = s.
Proof.
  induction s as [| c s IH]; [reflexivity |]. simpl. intros A.
  apply andb_prop in A as [C A].
  assert (isCombiningMark c = false) as ->.
  { unfold isLowerAlnumSpace, isDigit in C. unfold isCombiningMark.
    apply andb_false_iff. left. apply N.leb_gt.
    repeat match goal with
           | H : (_ || _)%bool = true |- _ => apply orb_prop in H as [H | H]
           | H : (_ && _)%bool = true |- _ => apply andb_prop in H as [? ?]
           | H : (_ =? _)%N = true |- _ => apply N.eqb_eq in H
           | H : (_ <=? _)%N = true |- _ => apply N.leb_le in H
           end; lia. }
  simpl. now rewrite IH.
Qed.

Lemma class_map_id (s : jsstring) :
  forallb isLowerAlnumSpace s = true ->
  List.map (fun c => if isLowerAlnumSpace c then c else 32%N) s = s.
Proof.
  induction s as [| c s IH]; [reflexivity |]. simpl. intros A.
  apply andb_prop in A as [C A]. now rewrite C, IH.
Qed.

Lemma collapseWhiteFrom_id (s : jsstring) (inRun : bool) :
  forallb isLowerAlnumSpace s = true -> spacedOnce s = true ->
  (inRun = true -> startsClean s = true) ->
  collapseWhiteFrom inRun s = s.
Proof.
  revert inRun. induction s as [| c s IH]; intros inRun A S C; [reflexivity |].
  simpl in A. apply andb_prop in A as [Cc A].
  cbn [collapseWhiteFrom]. destruct (isWhite c) eqn:W.
  - destruct inRun.
    + specialize (C eq_refl). simpl in C. rewrite W in C. discriminate C.
    + rewrite (white_in_class c Cc W). f_equal.
      apply IH; [exact A | now apply spacedOnce_tail in S |].
      intros _. destruct s as [| c' s]; [reflexivity |].
      rewrite spacedOnce_cons, W in S. apply andb_prop in S as [S _].
      simpl in S. simpl. exact S.
  - f_equal. apply IH; [exact A | now apply spacedOnce_tail in S | discriminate].
Qed.

Section NormMore.
Context `{Host}.

Lemma norm_trimmed (v : JsVal) : trim (norm v) = norm v.
Proof. unfold norm. cbv zeta. apply trim_idempotent. Qed.

Lemma norm_spaced (v : JsVal) : spacedOnce (norm v) = true.
Proof.
  unfold norm. cbv zeta. apply spacedOnce_trim. apply collapseWhiteFrom_shape.
Qed.

(** X2. Normalising normalised text changes nothing, on a host whose case
    folding and decomposition leave lower-case ASCII letters, digits and
    spaces alone. *)
Theorem norm_idempotent (v : JsVal) :
  (forall s, forallb isLowerAlnumSpace s = true ->
             toLowerCase s = s /\ normalizeNFD s = s) ->
  norm (VStr (norm v)) = norm v.
Proof.
  intros Hhost.
  pose proof (norm_class v) as C. pose proof (norm_spaced v) as S.
  pose proof (norm_trimmed v) as T.
  destruct (Hhost (norm v) C) as [L D].
  set (t := norm v) in *.
  unfold norm at 1. cbv zeta. cbn [nullishOrEmpty ToString].
  rewrite T, L, D, (class_not_combining t C), (class_map_id t C).
  unfold collapseWhite. rewrite (collapseWhiteFrom_id t false C S) by discriminate.
  exact T.
Qed.

(** X3. A cell or a column name passes the national id test exactly when
    its normalised text contains "cpf" or "documento", and the name test
    exactly when it contains "nome" or "cliente"; header detection and
    column mapping apply the same two tests.  The alternatives written with
    a slash or with accented letters never match, since normalised text has
    neither. *)
Theorem label_tests (v : JsVal) :
  let t := norm v in
  looksCpf v = includes t (lit "cpf") || includes t (lit "documento")
  /\ looksNome v = includes t (lit "nome") || includes t (lit "cliente")
  /\ isCpfKey t = looksCpf v
  /\ isNomeKey t = looksNome v
  /\ isObsKey t
     = includes t (lit "obs") || includes t (lit "coment") || includes t (lit "anot")
  /\ includes t (lit "cpf/cnpj") = false
  /\ includes t (lit "observa" ++ [231; 227]%N ++ lit "o") = false.
Proof.
  cbv zeta. pose proof (norm_class v) as C. set (t := norm v) in *.
  assert (includes t (lit "cpf/cnpj") = false) as Slash.
  { destruct (includes t (lit "cpf/cnpj")) eqn:E; [| reflexivity].
    pose proof (includes_forallb _ _ _ E C) as A. vm_compute in A. discriminate A. }
  assert (includes t (lit "observa" ++ [231; 227]%N ++ lit "o") = false) as Acc.
  { destruct (includes t (lit "observa" ++ [231; 227]%N ++ lit "o")) eqn:E;
      [| reflexivity].
    pose proof (includes_forallb _ _ _ E C) as A. vm_compute in A. discriminate A. }
  assert (looksCpf v = includes t (lit "cpf") || includes t (lit "documento")) as LC.
  { unfold looksCpf. cbv zeta. fold t. rewrite Slash, orb_false_r.
    rewrite (orb_implied (str_eqb t (lit "cpf"))).
    - rewrite (orb_comm (includes t (lit "cpf"))), (orb_implied (includes t (lit "cpf cnpj")));
        [reflexivity |].
      apply (includes_app t (lit "cpf") (lit " cnpj")).
    - unfold str_eqb. intros E. apply bool_decide_eq_true in E. rewrite E.
      reflexivity. }
  assert (looksNome v = includes t (lit "nome") || includes t (lit "cliente")) as LN.
  { unfold looksNome. cbv zeta. fold t.
    rewrite (orb_implied (str_eqb t (lit "nome"))); [reflexivity |].
    unfold str_eqb. intros E. apply bool_decide_eq_true in E. rewrite E.
    reflexivity. }
  repeat split; try assumption; try reflexivity.
  unfold isObsKey. rewrite Acc, orb_false_r.
  rewrite (orb_comm (includes t (lit "obs")) (includes t (lit "observacao"))).
  rewrite (orb_implied (includes t (lit "observacao"))); [reflexivity |].
  apply (includes_app t (lit "obs") (lit "ervacao")).
Qed.

End NormMore.

Lemma asciiLower_class (s : jsstring) :
  forallb isLowerAlnumSpace s = true -> RefHost.asciiLower s = s.
Proof.
  induction s as [| c s IH]; [reflexivity |]. simpl. intros A.
  apply andb_prop in A as [C A]. rewrite (IH A). f_equal.
  destruct ((65 <=? c) && (c <=? 90))%N eqn:U; [| reflexivity].
  unfold isLowerAlnumSpace, isDigit in C.
  repeat match goal with
         | H : (_ || _)%bool = true |- _ => apply orb_prop in H as [H | H]
         | H : (_ && _)%bool = true |- _ => apply andb_prop in H as [? ?]
         | H : (_ =? _)%N = true |- _ => apply N.eqb_eq in H
         | H : (_ <=? _)%N = true |- _ => apply N.leb_le in H
         end; lia.
Qed.

(** A column title with capitals, a slash and stray blanks: normalising its
    normal form gives the normal form again. *)
Lemma norm_idempotent_witness :
  let H := RefHost.brt in
  let title := VStr (lit "  CPF / CNPJ   do Cliente ") in
  norm (VStr (norm title)) = norm title.
Proof.
  intros H title. apply (norm_idempotent title).
  intros s C. split; [now apply asciiLower_class | reflexivity].
Defined.

(** ** Import *)

Lemma lit_inj (a b : string) : lit a = lit b -> a = b.
Proof.
  unfold lit. intros E.
  rewrite <- (string_of_list_ascii_of_string a), <- (string_of_list_ascii_of_string b).
  f_equal. revert E.
  generalize (list_ascii_of_string a) (list_ascii_of_string b).
  induction l as [| x l IH]; intros [| y l']; simpl; try discriminate; [reflexivity |].
  intros E. injection E as E1 E2. f_equal; [| now apply IH].
  rewrite <- (ascii_N_embedding x), <- (ascii_N_embedding y). now rewrite E1.
Qed.

Lemma natToString_inj (m n : nat) : natToString m = natToString n -> m = n.
Proof.
  unfold natToString. intros E. apply lit_inj in E.
  assert (Nat.to_uint m = Nat.to_uint n) as U.
  { pose proof (NilEmpty.usu (Nat.to_uint m)) as A.
    pose proof (NilEmpty.usu (Nat.to_uint n)) as B.
    rewrite E in A. rewrite A in B. now injection B. }
  rewrite <- (DecimalNat.Unsigned.of_to m), <- (DecimalNat.Unsigned.of_to n).
  now rewrite U.
Qed.

Section ImportMore.
Context `{Host}.

Lemma withIdFrom_ids (i : nat) (mapped : list Row) :
  Forall (fun r => _id r = None) mapped ->
  List.map _id (withIdFrom i mapped)
  = List.map (fun k => Some (natToString k)) (seq (S i) (length mapped)).
Proof.
  revert i. induction mapped as [| r rest IH]; intros i F; [reflexivity |].
  inversion F as [| ? ? Hr Hrest]; subst.
  cbn [withIdFrom List.map length seq]. rewrite (IH (S i) Hrest).
  f_equal. unfold setId. cbn [_id]. rewrite Hr, Nat.add_1_r. reflexivity.
Qed.

Lemma withIdFrom_clear (i : nat) (mapped : list Row) :
  Forall (fun r => _id r = None) mapped ->
  List.map clearId (withIdFrom i mapped) = mapped.
Proof.
  revert i. induction mapped as [| r rest IH]; intros i F; [reflexivity |].
  inversion F as [| ? ? Hr Hrest]; subst.
  cbn [withIdFrom List.map]. rewrite (IH (S i) Hrest). f_equal.
  destruct r. cbn in Hr. subst. reflexivity.
Qed.

Lemma mapped_no_id (json : list RawRow) :
  Forall (fun r => _id r = None) (List.filter hasIdentity (List.map mapRow json)).
Proof.
  apply Forall_forall. intros r Hr. apply list_elem_of_In in Hr.
  apply filter_In in Hr as [Hr _]. apply in_map_iff in Hr as (raw & <- & _).
  reflexivity.
Qed.

(** X5. The rows taken from a sheet are numbered "1", "2", ... in sheet
    order, so no two rows of a batch share an id; ids aside, they are the
    mapped rows that have a national id, a name or a phone, in sheet
    order. *)
Theorem importRows_ids (json : list RawRow) :
  List.map _id (importRows json)
  = List.map (fun k => Some (natToString k)) (seq 1 (length (importRows json)))
  /\ NoDup (List.map _id (importRows json))
  /\ List.map clearId (importRows json)
     = List.filter hasIdentity (List.map mapRow json).
Proof.
  unfold importRows. cbv zeta.
  pose proof (mapped_no_id json) as F.
  set (mapped := List.filter hasIdentity (List.map mapRow json)) in *.
  rewrite length_withIdFrom.
  split; [now apply withIdFrom_ids | split; [| now apply withIdFrom_clear]].
  rewrite (withIdFrom_ids 0 mapped F).
  apply NoDup_fmap_2; [| apply NoDup_seq].
  intros a b E. injection E as E. now apply natToString_inj.
Qed.

(** X7. Columns whose name passes none of the eight tests of [mapRow] play
    no part: the mapped row is the same without them. *)
Theorem mapRow_ignores_unmapped (rawObj : RawRow) :
  mapRow (List.filter (fun kv => isMappedKey (fst kv)) rawObj) = mapRow rawObj.
Proof.
  assert (forall p : jsstring -> bool,
             (forall k, p (norm (VStr k)) = true -> isMappedKey k = true) ->
             getBy p (List.filter (fun kv => isMappedKey (fst kv)) rawObj)
             = getBy p rawObj) as G.
  { intros p Hp. induction rawObj as [| [k v] rest IH]; [reflexivity |].
    cbn [List.filter fst getBy].
    destruct (p (norm (VStr k))) eqn:Pk.
    - rewrite (Hp k Pk). cbn [getBy]. now rewrite Pk.
    - destruct (isMappedKey k); [cbn [getBy]; rewrite Pk |]; exact IH. }
  unfold mapRow. cbv zeta.
  rewrite !G; [reflexivity | ..];
    intros k E; unfold isMappedKey; cbv zeta; rewrite E;
    rewrite ?orb_true_r; reflexivity.
Qed.

End ImportMore.

Section HeaderMore.
Context `{Host}.

(** X4. The header index is below 25 and, unless the sheet is empty, is
    the index of one of its rows; an empty sheet gives 0. *)
Theorem findHeaderRow_bounds (aoa : list (list JsVal)) :
  (findHeaderRow aoa < 25)%nat
  /\ (findHeaderRow aoa <= Nat.pred (length aoa))%nat.
Proof.
  unfold findHeaderRow. cbv zeta.
  set (window := Nat.min 25 (length aoa)).
  pose proof (scanRows_spec hasCpfAndNome aoa window 0) as S1.
  pose proof (scanRows_spec hasThreeFilled aoa window 0) as S2.
  assert (window <= 25 /\ window <= length aoa)%nat as [W1 W2] by (unfold window; lia).
  destruct (scanRows hasCpfAndNome aoa 0 window) as [k |];
    [destruct S1 as (R & _); lia |].
  destruct (scanRows hasThreeFilled aoa 0 window) as [k |];
    [destruct S2 as (R & _); lia |].
  lia.
Qed.

Lemma digit_not_white (c : N) : isDigit c = true -> isWhite c = false.
Proof.
  unfold isDigit. intros D. apply andb_prop in D as [L U].
  apply N.leb_le in L, U. unfold isWhite. cbn [existsb].
  repeat match goal with
         | |- (_ || _)%bool = false => apply orb_false_iff; split
         | |- (_ && _)%bool = false => apply andb_false_iff; left
         | |- (_ =? _)%N = false => apply N.eqb_neq; lia
         | |- (_ <=? _)%N = false => apply N.leb_gt; lia
         end; reflexivity.
Qed.

(** X6. A text cell that reads DD/MM/YYYY, blanks around it aside, is taken
    day first: it becomes the local midnight of that day of that month,
    and the host's own reading of date strings is not consulted. *)
Theorem excelToDate_day_first
    (lead trail : jsstring) (d1 d2 m1 m2 y1 y2 y3 y4 : N) :
  forallb isWhite lead = true -> forallb isWhite trail = true ->
  forallb isDigit [d1; d2; m1; m2; y1; y2; y3; y4] = true ->
  excelToDate
    (VStr (lead ++ [d1; d2; 47; m1; m2; 47; y1; y2; y3; y4]%N ++ trail))
  = Some (newDate
            (1000 * digitVal y1 + 100 * digitVal y2 + 10 * digitVal y3 + digitVal y4)
            (10 * digitVal m1 + digitVal m2 - 1)
            (10 * digitVal d1 + digitVal d2)).
Proof.
  intros L T D. unfold excelToDate.
  rewrite ToString_falsyOrEmpty_str.
  pose proof D as D'. cbn [forallb] in D'.
  repeat match goal with
         | H : (_ && _)%bool = true |- _ => apply andb_prop in H as [? H]
         end.
  rewrite trim_margins; [| exact L | exact T | |].
  - unfold matchDayMonthYear. rewrite D, !N.eqb_refl. reflexivity.
  - simpl. now rewrite digit_not_white.
  - unfold endsClean. simpl. now rewrite digit_not_white.
Qed.

End HeaderMore.

(** "03/04/2024" with blanks around it is 3 April 2024, at local midnight. *)
Lemma excelToDate_day_first_witness :
  let H := RefHost.brt in
  excelToDate (VStr (lit "  03/04/2024 ")) = Some (newDate 2024 3 3).
Proof.
  intros H.
  exact (excelToDate_day_first (lit "  ") (lit " ") 48 51 48 52 50 48 50 52
           eq_refl eq_refl eq_refl).
Defined.

(** ** Promise keys and overlays *)

Section PromiseMore.
Context `{Host}.

Lemma keyForClientLike_cases (r : Row) :
  (exists d, keyForClientLike r = lit "cpf:" ++ d /\ (8 <= length d)%nat)
  \/ (exists d, keyForClientLike r = lit "tel:" ++ d /\ (10 <= length d)%nat)
  \/ keyForClientLike r = [].
Proof.
  rewrite keyForClientLike_unfold. cbv zeta.
  destruct (8 <=? length (List.filter isDigit (CPF r)))%nat eqn:E8.
  - left. eexists. split; [reflexivity | now apply Nat.leb_le].
  - destruct (10 <=? length (List.filter isDigit (Telefone r)))%nat eqn:E10.
    + right. left. eexists. split; [reflexivity | now apply Nat.leb_le].
    + right. right. reflexivity.
Qed.

(** X8. The key the promise form files a promise under agrees with the
    key of a client that has the same fields when the national id has at
    least 8 digits, or is empty while the phone has at least 10.  A
    non-empty national id with fewer than 8 digits, or an empty one with a
    non-empty phone of fewer than 10, gives a key that no client record
    resolves to: such a promise is never overlaid on any row. *)
Theorem formKey_and_client_key (r : Row) (fresh : jsstring) :
  let cpf := List.filter isDigit (CPF r) in
  let tel := List.filter isDigit (Telefone r) in
  let key := formKey (CPF r) (Telefone r) fresh in
  ((8 <= length cpf)%nat -> key = keyForClientLike r)
  /\ (CPF r = [] -> (10 <= length tel)%nat -> key = keyForClientLike r)
  /\ (CPF r <> [] -> (length cpf < 8)%nat ->
      forall r' : Row, keyForClientLike r' <> key)
  /\ (CPF r = [] -> Telefone r <> [] -> (length tel < 10)%nat ->
      forall r' : Row, keyForClientLike r' <> key).
Proof.
  cbv zeta. unfold formKey. rewrite !onlyDigits_str.
  split; [| split; [| split]].
  - intros L. rewrite keyForClientLike_unfold. cbv zeta.
    apply Nat.leb_le in L. rewrite L.
    destruct (CPF r) as [| c s] eqn:E; [simpl in L; discriminate L | reflexivity].
  - intros E L. rewrite keyForClientLike_unfold. cbv zeta. rewrite E.
    change (8 <=? length (List.filter isDigit []))%nat with false.
    change (negb (is_empty (@nil N))) with false. cbv iota.
    apply Nat.leb_le in L. rewrite L.
    destruct (Telefone r) as [| c s] eqn:T; [simpl in L; discriminate L | reflexivity].
  - intros N L r' K.
    destruct (CPF r) as [| c s] eqn:E; [congruence |]. cbn [is_empty negb] in K.
    destruct (keyForClientLike_cases r') as [(d & Ed & Ld) | [(d & Ed & Ld) | Ed]];
      rewrite Ed in K.
    + apply app_inv_head in K. subst d. lia.
    + vm_compute in K. discriminate K.
    + discriminate K.
  - intros E N L r' K. rewrite E in K. cbn [is_empty negb] in K.
    destruct (Telefone r) as [| c s] eqn:T; [congruence |]. cbn [is_empty negb] in K.
    destruct (keyForClientLike_cases r') as [(d & Ed & Ld) | [(d & Ed & Ld) | Ed]];
      rewrite Ed in K.
    + vm_compute in K. discriminate K.
    + apply app_inv_head in K. subst d. lia.
    + discriminate K.
Qed.

Lemma draftKey_not_empty (r : Row) (fresh : jsstring) : draftKey r fresh <> [].
Proof.
  unfold draftKey. cbv zeta.
  destruct (keyForClientLike r) as [| c k] eqn:E; cbn [is_empty negb]; discriminate.
Qed.

Lemma mergePromise_lookup (promises : gmap jsstring Promise.payload) (r : Row) :
  mergePromise promises r
  = match (if negb (is_empty (keyForClientLike r))
           then promises !! keyForClientLike r else None) with
    | Some p => if is_empty (Promise.promiseISO p) then r
                else setPromessaISO (Promise.promiseISO p) r
    | None => r
    end.
Proof. reflexivity. Qed.

(** X9. A promise saved from a client's row, under the key the draft was
    opened with, is overlaid by the next merge on every row with that
    client's identity key and changes the merge of no row with another key.
    For a client with no usable national id or phone the promise is stored
    under a custom key and the client's own row never shows it. *)
Theorem saved_promise_reach (store : gmap jsstring Promise.payload)
    (r r' : Row) (fresh : jsstring) (p : Promise.payload) :
  Promise.promiseISO p <> [] ->
  let store' := upsertPromiseByKey (draftKey r fresh) (Some p) store in
  (keyForClientLike r <> [] -> keyForClientLike r' = keyForClientLike r ->
   PromessaISO (mergePromise store' r') = Some (Promise.promiseISO p))
  /\ (keyForClientLike r' <> draftKey r fresh ->
      mergePromise store' r' = mergePromise store r')
  /\ (keyForClientLike r = [] ->
      store' !! (lit "custom:" ++ fresh) = Some p
      /\ mergePromise store' r = mergePromise store r).
Proof.
  intros Iso. cbv zeta. unfold upsertPromiseByKey. cbv zeta.
  split; [| split].
  - intros K E. rewrite mergePromise_lookup, E.
    unfold draftKey. cbv zeta.
    destruct (keyForClientLike r) as [| c k] eqn:Ek; [congruence |].
    cbn [is_empty negb]. rewrite lookup_insert_eq.
    destruct (Promise.promiseISO p) as [| x iso] eqn:Ep; [congruence |].
    reflexivity.
  - intros Ne. rewrite !mergePromise_lookup.
    rewrite lookup_insert_ne by congruence. reflexivity.
  - intros K. unfold draftKey. cbv zeta. rewrite K. cbn [is_empty negb].
    split; [apply lookup_insert_eq |].
    rewrite !mergePromise_lookup, K. reflexivity.
Qed.

(** X10. Merging promises touches nothing but the promise date of a row.
    The row is returned as it is when the menu would offer to register a
    promise, which includes every row with no identity key; when the menu
    would offer to edit one, the row gets the date of the stored payload. *)
Theorem mergePromise_overlay (promises : gmap jsstring Promise.payload) (r : Row) :
  (forall iso, setPromessaISO iso (mergePromise promises r) = setPromessaISO iso r)
  /\ (hasPromise promises r = false -> mergePromise promises r = r)
  /\ (hasPromise promises r = true ->
      exists p, promises !! keyForClientLike r = Some p
                /\ Promise.promiseISO p <> []
                /\ mergePromise promises r = setPromessaISO (Promise.promiseISO p) r)
  /\ (keyForClientLike r = [] -> hasPromise promises r = false).
Proof.
  unfold hasPromise. cbv zeta. rewrite mergePromise_lookup.
  destruct (keyForClientLike r) as [| c k] eqn:K; cbn [is_empty negb].
  - repeat split; try reflexivity; discriminate.
  - destruct (promises !! (c :: k)) as [p |] eqn:L.
    + destruct (Promise.promiseISO p) as [| x iso] eqn:Ep; cbn [is_empty negb].
      * repeat split; try reflexivity; discriminate.
      * split; [reflexivity |]. split; [discriminate |].
        split; [| discriminate]. intros _. exists p. rewrite Ep.
        repeat split. discriminate.
    + repeat split; try reflexivity; discriminate.
Qed.

End PromiseMore.

(** A client with a formatted national id: the form and the record agree
    on the key. *)
Lemma formKey_and_client_key_witness :
  let H := RefHost.brt in
  let ana := Sample.row "1" "123.456.789-00" "Ana" "" "(11) 98765-4321" "" in
  formKey (CPF ana) (Telefone ana) (lit "id:1") = keyForClientLike ana.
Proof.
  intros H ana.
  apply (proj1 (formKey_and_client_key ana (lit "id:1"))). vm_compute. lia.
Defined.

(** Ana's promise, saved from her row, shows on a second row that carries
    her national id unformatted. *)
Lemma saved_promise_reach_witness :
  let H := RefHost.brt in
  let ana := Sample.row "1" "123.456.789-00" "Ana" "" "(11) 98765-4321" "" in
  let twin := Sample.row "9" "12345678900" "Ana M." "" "" "" in
  let p := Sample.promise "2024-04-01T03:00:00.000Z" in
  PromessaISO
    (mergePromise (upsertPromiseByKey (draftKey ana (lit "id:1")) (Some p) ∅) twin)
  = Some (lit "2024-04-01T03:00:00.000Z").
Proof.
  intros H ana twin p.
  apply (proj1 (saved_promise_reach ∅ ana twin (lit "id:1") p
                  ltac:(vm_compute; discriminate))).
  - vm_compute. discriminate.
  - reflexivity.
Defined.

(** ** Counting with filters *)

Lemma length_filter_split {A : Type} (f : A -> bool) (l : list A) :
  (length (List.filter f l) + length (List.filter (fun x => negb (f x)) l)
   = length l)%nat.
Proof.
  induction l as [| x l IH]; [reflexivity |].
  simpl. destruct (f x); simpl; lia.
Qed.

Lemma length_filter_le {A : Type} (f : A -> bool) (l : list A) :
  (length (List.filter f l) <= length l)%nat.
Proof. induction l as [| x l IH]; simpl; [| destruct (f x); simpl]; lia. Qed.

Lemma length_filter_disjoint {A : Type} (a b c : A -> bool) (l : list A) :
  (forall x, a x = true -> c x = true) ->
  (forall x, b x = true -> c x = true) ->
  (forall x, a x = true -> b x = false) ->
  (length (List.filter a l) + length (List.filter b l)
   <= length (List.filter c l))%nat.
Proof.
  intros Ac Bc D. induction l as [| x l IH]; [reflexivity |].
  simpl. specialize (Ac x). specialize (Bc x). specialize (D x).
  destruct (a x), (b x), (c x); simpl;
    try lia; try (specialize (Ac eq_refl); discriminate);
    try (specialize (Bc eq_refl); discriminate);
    specialize (D eq_refl); discriminate.
Qed.

(** ** The working set across user actions *)

Section InvariantFacts.
Context `{Host}.

Lemma filter_map_commute {A : Type} (f : A -> bool) (g : A -> A) (l : list A) :
  (forall x, f (g x) = f x) ->
  List.filter f (List.map g l) = List.map g (List.filter f l).
Proof.
  intros E. induction l as [| x l IH]; [reflexivity |].
  simpl. rewrite E. destruct (f x); simpl; now rewrite IH.
Qed.

Lemma isManual_mergePromise (store : gmap jsstring Promise.payload) (r : Row) :
  isManual (mergePromise store r) = isManual r.
Proof. unfold isManual. now rewrite mergePromise_source. Qed.

Lemma clearPromessa_merge (store : gmap jsstring Promise.payload) (r : Row) :
  clearPromessa (mergePromise store r) = clearPromessa r.
Proof.
  unfold mergePromise. cbv zeta.
  destruct (if negb (is_empty (keyForClientLike r))
            then store !! keyForClientLike r else None) as [p |]; [| reflexivity].
  destruct (is_empty (Promise.promiseISO p)); reflexivity.
Qed.

Lemma map_clear_merge (store : gmap jsstring Promise.payload) (l : list Row) :
  List.map clearPromessa (mergePromisesIntoRows store l) = List.map clearPromessa l.
Proof.
  unfold mergePromisesIntoRows. rewrite List.map_map.
  apply List.map_ext. intros r. apply clearPromessa_merge.
Qed.

Lemma rowsInv_merge (store : gmap jsstring Promise.payload) (m l : list Row) :
  rowsInv m l -> rowsInv m (mergePromisesIntoRows store l).
Proof.
  intros (I1 & I2 & I3). unfold rowsInv, mergePromisesIntoRows.
  rewrite !filter_map_commute
    by (intros r; now rewrite ?isManual_mergePromise).
  split; [| split].
  - rewrite <- I1. apply (map_clear_merge store).
  - rewrite <- List.map_app. now rewrite <- I2.
  - apply Forall_forall. intros r Hr. apply list_elem_of_In in Hr.
    apply in_map_iff in Hr as (r0 & <- & Hr0).
    rewrite mergePromise_source.
    rewrite Forall_forall in I3. apply I3. now apply list_elem_of_In.
Qed.

Lemma filter_all {A : Type} (f : A -> bool) (l : list A) :
  (forall x, In x l -> f x = true) -> List.filter f l = l.
Proof.
  induction l as [| x l IH]; [reflexivity |]. intros E.
  simpl. rewrite (E x (or_introl eq_refl)). f_equal. apply IH.
  intros y Hy. apply E. now right.
Qed.

Lemma filter_none {A : Type} (f : A -> bool) (l : list A) :
  (forall x, In x l -> f x = false) -> List.filter f l = [].
Proof.
  induction l as [| x l IH]; [reflexivity |]. intros E.
  simpl. rewrite (E x (or_introl eq_refl)). apply IH.
  intros y Hy. apply E. now right.
Qed.

Lemma rowsInv_compose (m imp : list Row) :
  rowsInv m (manualRows m ++ List.map (setSource (lit "excel")) imp).
Proof.
  assert (List.filter isManual (manualRows m) = manualRows m) as M1.
  { apply filter_all. intros r Hr. apply in_map_iff in Hr as (c & <- & _).
    reflexivity. }
  assert (List.filter (fun r => negb (isManual r)) (manualRows m) = []) as M2.
  { apply filter_none. intros r Hr. apply in_map_iff in Hr as (c & <- & _).
    reflexivity. }
  assert (List.filter isManual (List.map (setSource (lit "excel")) imp) = []) as E1.
  { apply filter_none. intros r Hr. apply in_map_iff in Hr as (c & <- & _).
    reflexivity. }
  assert (List.filter (fun r => negb (isManual r))
            (List.map (setSource (lit "excel")) imp)
          = List.map (setSource (lit "excel")) imp) as E2.
  { apply filter_all. intros r Hr. apply in_map_iff in Hr as (c & <- & _).
    reflexivity. }
  unfold rowsInv. rewrite !List.filter_app, M1, M2, E1, E2, app_nil_r.
  split; [reflexivity | split; [reflexivity |]].
  apply Forall_forall. intros r Hr. apply list_elem_of_In in Hr.
    apply in_app_or in Hr as [Hr | Hr];
      apply in_map_iff in Hr as (c & <- & _); [left | right]; reflexivity.
Qed.

Lemma rowsInv_manual (store : gmap jsstring Promise.payload) (m : list Row) :
  rowsInv m (mergePromisesIntoRows store (manualRows m)).
Proof.
  apply rowsInv_merge. pose proof (rowsInv_compose m []) as C.
  cbn [List.map] in C. now rewrite app_nil_r in C.
Qed.

(** The row [saveManualClient] puts in front of the working set is the row
    [manualRows] makes of the item it stores. *)
Lemma manualRow_manualItem (id CPF Nome Telefone : jsstring)
    (valor : number + jsstring) (vencISO : jsstring) (now : Z) :
  manualRow (manualItem id CPF Nome Telefone valor vencISO now)
  = setSource (lit "manual") (manualItem id CPF Nome Telefone valor vencISO now).
Proof. destruct valor; reflexivity. Qed.

Lemma WorkingSetInv_step (past : list AppState) (s : AppState) (a : Action) :
  match a with
  | HandleFile age => manualClients (nth age (s :: past) s) = manualClients s
  | _ => True
  end ->
  WorkingSetInv s -> WorkingSetInv (step past s a).
Proof.
  intros Seen I. pose proof I as (I1 & I2 & I3).
  destruct a as [age | json | id cpf nome tel valor venc now | confirmed
                 | key payload | confirmed key];
    cbn [step].
  - unfold WorkingSetInv, handleFile. cbn [rows manualClients].
    rewrite Seen. apply rowsInv_manual.
  - apply (rowsInv_merge (promises s) (manualClients s)). apply rowsInv_compose.
  - unfold saveManualClient, WorkingSetInv. cbn [rows manualClients].
    apply rowsInv_merge.
    unfold rowsInv. cbn [List.filter].
    change (isManual (setSource (lit "manual")
                        (manualItem id cpf nome tel valor venc now)))
      with true.
    cbn [negb List.map app manualRows]. split; [| split].
    + rewrite manualRow_manualItem. f_equal. exact I1.
    + now rewrite <- I2.
    + constructor; [left; reflexivity | exact I3].
  - unfold deleteAllManualClients. destruct confirmed; cbn [negb]; [| exact I].
    unfold WorkingSetInv, rowsInv. cbn [rows manualClients].
    change (fun r : Row => negb (bool_decide (_source r = Some (lit "manual"))))
      with (fun r : Row => negb (isManual r)).
    assert (List.filter isManual (List.filter (fun r => negb (isManual r)) (rows s)) = [])
      as Z.
    { apply filter_none. intros r Hr. apply filter_In in Hr as [_ Hr].
      now apply negb_true_iff in Hr. }
    rewrite Z. split; [reflexivity | split].
    + cbn [app]. symmetry. apply filter_all. intros r Hr.
      now apply filter_In in Hr as [_ Hr].
    + apply Forall_forall. intros r Hr. apply list_elem_of_In in Hr.
      apply filter_In in Hr as [Hr _]. rewrite Forall_forall in I3.
      apply I3. now apply list_elem_of_In.
  - apply (rowsInv_merge (promises s) (manualClients s) (rows s)). exact I.
  - unfold removePromiseByKey. destruct confirmed; cbn [negb]; [| exact I].
    apply (rowsInv_merge (promises s) (manualClients s) (rows s)). exact I.
Qed.

Lemma step_manualClients (past : list AppState) (s : AppState) (a : Action) :
  changesManual a = false -> manualClients (step past s a) = manualClients s.
Proof.
  destruct a as [age | json | id cpf nome tel valor venc now | confirmed
                 | key payload | confirmed key];
    cbn [changesManual step]; intros C; try discriminate; try reflexivity.
  - now subst confirmed.
  - unfold removePromiseByKey. now destruct confirmed.
Qed.

(** The invariant along a run.  The first premise ties the earlier states
    to the actions taken: a state that lies before actions none of which
    changed the manual clients holds the manual clients of [s]. *)
Lemma runFrom_invariant (actions : list Action) :
  forall (done : list Action) (past : list AppState) (s : AppState),
  (forall age, existsb changesManual (firstn age done) = false ->
               manualClients (nth age (s :: past) s) = manualClients s) ->
  WorkingSetInv s ->
  readsSettled done actions = true ->
  WorkingSetInv (runFrom past s actions).
Proof.
  induction actions as [| a actions IH]; intros done past s Seen I R;
    [exact I |].
  cbn [readsSettled] in R. apply andb_prop in R as [Ra R].
  cbn [runFrom]. apply (IH (a :: done)); [| | exact R].
  - intros [| age]; [reflexivity |].
    cbn [firstn existsb]. intros E.
    apply orb_false_elim in E as [Ca E].
    change (nth (S age) (step past s a :: s :: past) (step past s a))
      with (nth age (s :: past) (step past s a)).
    rewrite (step_manualClients past s a Ca).
    destruct (Nat.lt_ge_cases age (length (s :: past))) as [L | L].
    + rewrite (nth_indep (s :: past) (step past s a) s L). now apply Seen.
    + rewrite (nth_overflow (s :: past) (step past s a) L).
      apply (step_manualClients past s a Ca).
  - apply WorkingSetInv_step; [| exact I].
    destruct a; try exact Logic.I.
    apply Seen. now apply negb_true_iff in Ra.
Qed.

(** X11. From the first render on and through any sequence of file reads,
    sheet loads, manual saves, deletions of the manual clients, and promise
    saves and removals in which no read of a file spans a manual save or a
    deletion of the manual clients, the manual rows of the working set are,
    field by field and the promise date aside, the rows made of the stored
    manual clients, one row each in their order; they stand before the rows
    of the sheet; and every row is marked manual or excel. *)
Theorem workingSet_invariant (manual : list Row)
    (store : gmap jsstring Promise.payload) (actions : list Action) :
  readsSettled [] actions = true ->
  WorkingSetInv
    (run (initRows {| manualClients := manual; promises := store; rows := [] |})
         actions).
Proof.
  intros R. unfold run.
  apply (runFrom_invariant actions []); [| | exact R].
  - intros age _. destruct age as [| [| age]]; reflexivity.
  - unfold initRows, WorkingSetInv. cbn [rows manualClients promises].
    apply rowsInv_manual.
Qed.

(** X21. A manual client saved while a file is being read is stored, yet
    when the read ends the working set is set from the manual clients of
    the render in which the file was chosen: the new client has no row, and
    the working set no longer shows the stored manual clients. *)
Theorem stale_file_read (manual : list Row)
    (store : gmap jsstring Promise.payload)
    (id CPF Nome Telefone : jsstring) (valor : number + jsstring)
    (vencISO : jsstring) (now : Z) :
  let item := manualItem id CPF Nome Telefone valor vencISO now in
  let s := run (initRows {| manualClients := manual; promises := store;
                            rows := [] |})
               [SaveManualClient id CPF Nome Telefone valor vencISO now;
                HandleFile 1] in
  manualClients s = item :: manual
  /\ rows s = mergePromisesIntoRows store (manualRows manual)
  /\ ~ WorkingSetInv s.
Proof.
  cbv zeta. split; [reflexivity | split; [reflexivity |]].
  intros (I1 & _). apply (f_equal (@length Row)) in I1.
  cbn [run runFrom step handleFile rows manualClients nth initRows promises
       saveManualClient] in I1.
  pose proof (length_filter_le isManual
                (mergePromisesIntoRows store (manualRows manual))) as L.
  unfold mergePromisesIntoRows, manualRows in I1, L.
  rewrite !length_map in L.
  repeat rewrite length_map in I1. cbn [length] in I1.
  rewrite I1 in L. lia.
Qed.

End InvariantFacts.

(** A session at UTC-03:00: a file is read, Lia is saved by hand, a sheet
    with Ana's row is loaded, a second file is read across the load of the
    sheet, a promise is saved and the manual clients are deleted. *)
Lemma workingSet_invariant_witness :
  let H := RefHost.brt in
  let actions :=
    [ HandleFile 0;
      SaveManualClient (lit "id:1") (lit "111.222.333-44") (lit "Lia")
        (lit "(11) 90000-1111") (inl 150) (lit "2024-03-20T03:00:00.000Z")
        Sample.noon15March;
      LoadSelectedSheet [Sample.anaRaw];
      HandleFile 1;
      SavePromise Sample.keyAna (Sample.promise "2024-04-01T03:00:00.000Z");
      DeleteAllManualClients true ] in
  WorkingSetInv (run (initRows Sample.fresh) actions).
Proof.
  intros H actions.
  exact (workingSet_invariant [] Sample.store actions eq_refl).
Defined.

(** ** The client view, its counters and the bulk modes *)

Lemma filter_filter_andb {A : Type} (f g : A -> bool) (l : list A) :
  List.filter f (List.filter g l) = List.filter (fun x => g x && f x) l.
Proof.
  induction l as [| x l IH]; [reflexivity |].
  simpl. destruct (g x); simpl; [destruct (f x) |]; now rewrite IH.
Qed.

Section ViewFacts.
Context `{Host}.
Variable today : Z.

Lemma due_today_unpaid (r : Row) : venceHoje today r = true -> isPago r = false.
Proof.
  intros V. destruct (isPago r) eqn:P; [| reflexivity].
  now rewrite (paid_not_due_today today r P) in V.
Qed.

Lemma overdue_unpaid (r : Row) : atrasado today r = true -> isPago r = false.
Proof.
  intros V. destruct (isPago r) eqn:P; [| reflexivity].
  now rewrite (paid_not_overdue today r P) in V.
Qed.

(** X12. On the dashboard, pending and paid clients add up to the total,
    and the clients due today and the overdue ones are different pending
    clients, so their counts add up to at most the pending count. *)
Theorem stats_consistent (rows : list Row) :
  let st := stats today rows in
  (pendentes st + pagos st = totalClientes st)%nat
  /\ (manuais st <= totalClientes st)%nat
  /\ (ZoneLaws H -> 100 <= getFullYear today ->
      (venceHojeCount st + atrasados st <= pendentes st)%nat).
Proof.
  cbv zeta. unfold stats. cbn [pendentes pagos totalClientes manuais venceHojeCount atrasados].
  split; [| split].
  - rewrite Nat.add_comm. apply (length_filter_split isPago).
  - apply length_filter_le.
  - intros L Y. apply length_filter_disjoint.
    + intros r V. now rewrite (due_today_unpaid r V).
    + intros r V. now rewrite (overdue_unpaid r V).
    + intros r V. now apply due_today_not_overdue.
Qed.

Lemma filtered_as_filter (q : jsstring) (f : Filter) (rows : list Row) :
  filtered today q f rows
  = List.filter (byFilter today f) (filtered today q TODOS rows).
Proof.
  unfold filtered. cbv zeta. rewrite filter_filter_andb.
  apply List.filter_ext. intros r. cbn [byFilter]. apply andb_comm.
Qed.

(** X13. For a given search text, every filtered view is the unfiltered
    view with the rows that fail the filter left out, in the same order; the
    paid and the pending views split the unfiltered view between them; and
    the views of clients due today and of overdue clients are parts of the
    pending view. *)
Theorem views_split (q : jsstring) (rows : list Row) :
  (forall f, filtered today q f rows
             = List.filter (byFilter today f) (filtered today q TODOS rows))
  /\ (length (filtered today q PAGO rows) + length (filtered today q PENDENTE rows)
      = length (filtered today q TODOS rows))%nat
  /\ filtered today q VENCE_HOJE rows
     = List.filter (venceHoje today) (filtered today q PENDENTE rows)
  /\ filtered today q ATRASADO rows
     = List.filter (atrasado today) (filtered today q PENDENTE rows).
Proof.
  split; [intros f; apply filtered_as_filter |].
  split; [| split].
  - rewrite (filtered_as_filter q PAGO), (filtered_as_filter q PENDENTE).
    apply (length_filter_split isPago).
  - rewrite (filtered_as_filter q VENCE_HOJE), (filtered_as_filter q PENDENTE).
    rewrite filter_filter_andb. apply List.filter_ext. intros r. cbn [byFilter].
    destruct (venceHoje today r) eqn:V; [| now rewrite andb_false_r].
    now rewrite (due_today_unpaid r V).
  - rewrite (filtered_as_filter q ATRASADO), (filtered_as_filter q PENDENTE).
    rewrite filter_filter_andb. apply List.filter_ext. intros r. cbn [byFilter].
    destruct (atrasado today r) eqn:V; [| now rewrite andb_false_r].
    now rewrite (overdue_unpaid r V).
Qed.

(** Under a constant offset, an overdue record is at least one day late. *)
Lemma overdue_days_late (off : Z) (r : Row) :
  atOffset off today ->
  (forall t, vencDate r = Some (Some t) -> atOffset off t) ->
  atrasado today r = true -> numGe (daysLate today r) 1 = true.
Proof.
  intros Fd F A. unfold atrasado in A.
  destruct (vencDate r) as [[t |] |] eqn:V; try discriminate A.
  apply andb_prop in A as [Lt _]. unfold dateLt in Lt. apply Z.ltb_lt in Lt.
  rewrite (daysLate_valid today r t V). unfold baseHoje in *.
  pose proof (F t eq_refl) as Ft. unfold atOffset in Ft, Fd.
  rewrite Ft, Fd. rewrite Fd in Lt. cbn [numGe]. apply Z.leb_le.
  assert ((t + off) / MS_DAY < (today + off) / MS_DAY) as D.
  { apply Z.div_lt_upper_bound; [reflexivity |]. lia. }
  replace ((today + off) / MS_DAY * MS_DAY - off - ((t + off) / MS_DAY * MS_DAY - off))
    with (((today + off) / MS_DAY - (t + off) / MS_DAY) * MS_DAY) by lia.
  rewrite Z.div_mul by discriminate. lia.
Qed.

(** X14. The two modes for overdue clients never take the same record,
    and the mode for clients due today takes exactly the clients due today.
    On a host whose midnights are in order, a record taken by the mode for
    today is taken by neither of the other two.  Where local time is at the
    same offset from UTC today and on the due date of the record, an
    overdue record is taken by one of the two modes for overdue clients. *)
Theorem bulk_modes (r : Row) :
  bulkFilter today QUEBRAS r && bulkFilter today ATRASADO_1_5 r = false
  /\ bulkFilter today HOJE r = venceHoje today r
  /\ (ZoneLaws H -> 100 <= getFullYear today ->
      bulkFilter today HOJE r
      && (bulkFilter today QUEBRAS r || bulkFilter today ATRASADO_1_5 r) = false)
  /\ (forall off, atOffset off today ->
      (forall t, vencDate r = Some (Some t) -> atOffset off t) ->
      bulkFilter today QUEBRAS r || bulkFilter today ATRASADO_1_5 r
      = atrasado today r).
Proof.
  cbn [bulkFilter]. split; [| split; [| split]].
  - destruct (daysLate today r) as [n |]; cbn [numGt numGe numLe];
      [| now rewrite !andb_false_r].
    destruct (5 <? n) eqn:G; [| now rewrite andb_false_r].
    apply Z.ltb_lt in G. assert ((n <=? 5) = false) as -> by (apply Z.leb_gt; lia).
    now rewrite !andb_false_r.
  - destruct (venceHoje today r) eqn:V; [| reflexivity].
    now rewrite (due_today_unpaid r V).
  - intros L Y. destruct (venceHoje today r) eqn:V; [| reflexivity].
    rewrite (due_today_not_overdue today r Y V). cbn [andb orb].
    apply andb_false_r.
  - intros off Fd F. destruct (atrasado today r) eqn:A; [| reflexivity].
    rewrite (overdue_unpaid r A). cbn [negb]. rewrite !andb_true_r, !andb_true_l.
    pose proof (overdue_days_late off r Fd F A) as G. rewrite G.
    destruct (daysLate today r) as [n |]; cbn [numGt numGe numLe] in *;
      [| discriminate G].
    destruct (5 <? n) eqn:E; [reflexivity |].
    apply Z.ltb_ge in E. cbn [orb andb]. now apply Z.leb_le.
Qed.

End ViewFacts.

(** On 15 March at UTC-03:00 Ana, due on 9 March and not paid, is overdue
    and is taken by one of the two modes for overdue clients. *)
Lemma bulk_modes_witness :
  let H := RefHost.brt in
  let ana := Sample.row "1" "123.456.789-00" "Ana" "2024-03-09T03:00:00.000Z"
               "(11) 98765-4321" "" in
  atrasado Sample.noon15March ana = true
  /\ bulkFilter Sample.noon15March QUEBRAS ana
     || bulkFilter Sample.noon15March ATRASADO_1_5 ana
     = atrasado Sample.noon15March ana.
Proof.
  intros H ana. split; [vm_compute; reflexivity |].
  exact (proj2 (proj2 (proj2 (@bulk_modes H Sample.noon15March ana)))
           (-10800000) (fixed_atOffset _ _) (fun t _ => fixed_atOffset _ t)).
Defined.

(** ** Phone numbers *)

Lemma filter_digits_id (d : jsstring) :
  forallb isDigit d = true -> List.filter isDigit d = d.
Proof.
  induction d as [| c d IH]; [reflexivity |]. simpl. intros A.
  apply andb_prop in A as [C A]. now rewrite C, IH.
Qed.

Lemma forallb_filter_digits (s : jsstring) :
  forallb isDigit (List.filter isDigit s) = true.
Proof.
  induction s as [| c s IH]; [reflexivity |]. simpl.
  destruct (isDigit c) eqn:E; simpl; [rewrite E |]; exact IH.
Qed.

Section PhoneFacts.
Context `{Host}.

Lemma withCountryCode_shape (d : jsstring) :
  forallb isDigit d = true ->
  forallb isDigit (withCountryCode d) = true
  /\ startsWith (lit "55") (withCountryCode d) = true
  /\ (length d <= length (withCountryCode d))%nat.
Proof.
  intros D. unfold withCountryCode.
  destruct (startsWith (lit "55") d) eqn:S.
  - split; [exact D | split; [exact S | lia]].
  - split; [simpl; exact D | split; [reflexivity |]].
    rewrite length_app. lia.
Qed.

Lemma withCountryCode_fixed (d : jsstring) :
  startsWith (lit "55") d = true -> withCountryCode d = d.
Proof. intros S. unfold withCountryCode. now rewrite S. Qed.

(** X15. Every number that bulk selection yields consists of digits only,
    starts with "55" and has at least 10 digits, and there is at most one
    number per record. *)
Theorem bulkPhoneList_shape (rs : list Row) :
  Forall (fun p => forallb isDigit p = true
                   /\ startsWith (lit "55") p = true
                   /\ (10 <= length p)%nat)
         (bulkPhoneList rs)
  /\ (length (bulkPhoneList rs) <= length rs)%nat.
Proof.
  unfold bulkPhoneList. split.
  - apply Forall_forall. intros p Hp. apply list_elem_of_In in Hp.
    apply in_map_iff in Hp as (d & <- & Hd).
    apply filter_In in Hd as [Hd K].
    apply in_map_iff in Hd as (r & <- & _).
    apply andb_prop in K as [_ K]. apply Nat.leb_le in K.
    rewrite onlyDigits_str in *.
    destruct (withCountryCode_shape _ (forallb_filter_digits (Telefone r)))
      as (D & S & L).
    repeat split; [exact D | exact S | lia].
  - rewrite length_map.
    etransitivity; [apply length_filter_le |]. now rewrite length_map.
Qed.

(** X16. The link builder looks at the digits of the phone only, and a
    number it has normalised is normalised already: the phone as typed, its
    bare digits and its digits with the country prefix all give the same
    link.  On a number that is already digits starting with "55" the link
    carries that very number, provided it has at least 12 digits; with 10
    or 11 digits, which bulk selection lets through, there is no link. *)
Theorem buildWhatsLinkBR_normalised (phone message : jsstring) :
  buildWhatsLinkBR (VStr (List.filter isDigit phone)) message
  = buildWhatsLinkBR (VStr phone) message
  /\ buildWhatsLinkBR (VStr (withCountryCode (List.filter isDigit phone))) message
     = buildWhatsLinkBR (VStr phone) message
  /\ (forallb isDigit phone = true -> startsWith (lit "55") phone = true ->
      buildWhatsLinkBR (VStr phone) message
      = if (length phone <? 12)%nat then []
        else lit "https://wa.me/" ++ phone ++ lit "?text="
             ++ encodeURIComponent message).
Proof.
  unfold buildWhatsLinkBR. rewrite !onlyDigits_str. cbv zeta.
  pose proof (forallb_filter_digits phone) as D.
  split; [| split].
  - now rewrite (filter_digits_id _ D).
  - destruct (withCountryCode_shape _ D) as (D' & S & _).
    rewrite (filter_digits_id _ D'), (withCountryCode_fixed _ S). reflexivity.
  - intros Dp S. rewrite (filter_digits_id _ Dp), (withCountryCode_fixed _ S).
    reflexivity.
Qed.

End PhoneFacts.

(** A number of Santa Maria, area code 55, typed without the country
    prefix: it is digits starting with "55", ten of them, and gets no
    link. *)
Lemma buildWhatsLinkBR_normalised_witness :
  let H := RefHost.brt in
  buildWhatsLinkBR (VStr (lit "5532211234")) (lit "Oi") = [].
Proof.
  intros H.
  exact (proj2 (proj2 (buildWhatsLinkBR_normalised (lit "5532211234") (lit "Oi")))
           eq_refl eq_refl).
Defined.

(** ** Badges and the promise page *)

Section BadgeFacts.
Context `{Host}.
Variable today : Z.

(** X20. The badge of a row reflects its classification: the good badge
    exactly for paid records, the bad badge exactly for overdue ones, and,
    on a host whose midnights are in order, the warning badge exactly for
    records due today. *)
Theorem badgeForVenc_reflects (r : Row) :
  str_eqb (badgeForVenc today r) (lit "pill pillGood") = isPago r
  /\ str_eqb (badgeForVenc today r) (lit "pill pillBad") = atrasado today r
  /\ (ZoneLaws H -> 100 <= getFullYear today ->
      str_eqb (badgeForVenc today r) (lit "pill pillWarn") = venceHoje today r).
Proof.
  unfold badgeForVenc. cbv zeta.
  destruct (isPago r) eqn:P.
  - rewrite (paid_not_overdue today r P), (paid_not_due_today today r P).
    repeat split.
  - destruct (atrasado today r) eqn:A.
    + split; [reflexivity | split; [reflexivity |]]. intros L Y.
      destruct (venceHoje today r) eqn:V; [| reflexivity].
      now rewrite (due_today_not_overdue today r Y V) in A.
    + destruct (venceHoje today r); repeat split.
Qed.

End BadgeFacts.

Section PromisePage.
Context `{Host}.
Variable today : Z.

Lemma flagged_inView (view : PromiseView) (p : PromiseItem) :
  flagged today (inView view) p = true -> flagged today (inView TODAS) p = true.
Proof.
  unfold flagged. destruct (promiseFlags today p) as [[[a b] c] |];
    [reflexivity | discriminate].
Qed.

(** The walk of [promiseComputed] as a filter and three counts. *)
Lemma promiseScan_spec (view : PromiseView) (base : list PromiseItem)
    (counts : PromiseCounts) :
  promiseScan today view base counts
  = (List.filter (flagged today (inView view)) base,
     {| total := total counts;
        hoje := hoje counts
                + length (List.filter (flagged today (inView P_HOJE)) base);
        vencidas := vencidas counts
                    + length (List.filter (flagged today (inView VENCIDAS)) base);
        prox7 := prox7 counts
                 + length (List.filter (flagged today (inView PROX7)) base) |})%nat.
Proof.
  revert counts. induction base as [| p base IH]; intros counts.
  - simpl. destruct counts; simpl. now rewrite !Nat.add_0_r.
  - cbn [promiseScan List.filter].
    destruct (promiseFlags today p) as [[[a b] c] |] eqn:E.
    + assert (F : forall pick, flagged today pick p = pick (a, b, c))
        by (intros pick; unfold flagged; now rewrite E).
      rewrite IH, !F. cbn [total hoje vencidas prox7 inView].
      f_equal.
      f_equal; unfold bump; [destruct a | destruct b | destruct c];
        cbn [length]; lia.
    + assert (F : forall pick, flagged today pick p = false)
        by (intros pick; unfold flagged; now rewrite E).
      rewrite !F. apply IH.
Qed.

Lemma promiseFlags_disjoint (p : PromiseItem) :
  flagged today (inView VENCIDAS) p = true ->
  flagged today (inView PROX7) p = false.
Proof.
  unfold flagged, promiseFlags.
  destruct (dateParse (itemISO p)) as [d |]; [| discriminate].
  cbv zeta. cbn [inView]. intros V. apply Z.ltb_lt in V.
  apply andb_false_iff. left. apply Z.leb_gt.
  apply Z.div_lt_upper_bound; unfold MS_DAY in *; lia.
Qed.

(** X17. The counters of the promise page do not depend on the view that is
    shown; each of the three flag counters is the number of entries its own
    view lists; the total counts every entry, so it is the number the view
    of all promises lists exactly when no entry has an invalid date, and is
    larger otherwise; no entry is both overdue and in the coming seven days;
    and every view lists a part of what the view of all promises lists. *)
Theorem promiseComputed_counts (view : PromiseView) (base : list PromiseItem) :
  let counts := snd (promiseComputed today view base) in
  let listed v := fst (promiseComputed today v base) in
  counts = snd (promiseComputed today TODAS base)
  /\ total counts = length base
  /\ hoje counts = length (listed P_HOJE)
  /\ vencidas counts = length (listed VENCIDAS)
  /\ prox7 counts = length (listed PROX7)
  /\ (length (listed TODAS) <= total counts)%nat
  /\ (length (listed TODAS) = total counts
      <-> forall p, In p base -> dateParse (itemISO p) <> None)
  /\ (vencidas counts + prox7 counts <= length (listed TODAS))%nat
  /\ (forall p, In p (listed view) -> In p (listed TODAS)).
Proof.
  cbv zeta. unfold promiseComputed. rewrite !promiseScan_spec.
  cbn [fst snd total hoje vencidas prox7 Nat.add].
  repeat match goal with |- _ /\ _ => split end; try reflexivity.
  - apply length_filter_le.
  - split.
    + intros E p Hp N.
      pose proof (length_filter_split (flagged today (inView TODAS)) base) as S.
      assert (Z0 : List.filter (fun x => negb (flagged today (inView TODAS) x)) base = [])
        by (apply length_zero_iff_nil; lia).
      assert (I : In p (List.filter
                          (fun x => negb (flagged today (inView TODAS) x)) base)).
      { apply filter_In. split; [exact Hp |].
        unfold flagged, promiseFlags. now rewrite N. }
      rewrite Z0 in I. exact I.
    + intros V. f_equal. apply filter_all. intros p Hp.
      specialize (V p Hp). unfold flagged, promiseFlags.
      destruct (dateParse (itemISO p)); [reflexivity | contradiction].
  - apply length_filter_disjoint.
    + apply flagged_inView.
    + apply flagged_inView.
    + apply promiseFlags_disjoint.
  - intros p Hp. apply filter_In in Hp as [Hp F]. apply filter_In.
    split; [exact Hp | exact (flagged_inView _ _ F)].
Qed.

End PromisePage.

(** ** The export is read back *)

Lemma includes_unit (s : jsstring) (c : N) :
  includes s [c] = existsb (N.eqb c) s.
Proof.
  induction s as [| x s IH]; [reflexivity |].
  cbn [includes startsWith existsb]. rewrite IH.
  destruct s; now rewrite andb_true_r.
Qed.

Lemma plain_text (s : jsstring) :
  includes s [34%N] || includes s [44%N] || includes s [10%N] = false ->
  forallb Csv.isPlain s = true.
Proof.
  rewrite !includes_unit. induction s as [| x s IH]; [reflexivity |].
  cbn [existsb forallb]. unfold Csv.isPlain at 1. intros E.
  apply orb_false_elim in E as [E E3]. apply orb_false_elim in E as [E1 E2].
  apply orb_false_elim in E1 as [X1 E1]. apply orb_false_elim in E2 as [X2 E2].
  apply orb_false_elim in E3 as [X3 E3].
  rewrite (N.eqb_sym x 34), (N.eqb_sym x 44), (N.eqb_sym x 10), X1, X2, X3.
  cbn [orb negb andb]. apply IH. now rewrite E1, E2, E3.
Qed.

Module CsvFacts.
Import Csv.

(** Outside a quoted field the reader treats what may follow a field in
    the same way whatever it has read of the field. *)
Lemma scan_field_end (st : State) (cur : jsstring) (row : list jsstring)
    (rest : jsstring) :
  st <> Quoted -> atFieldEnd rest = true ->
  scan st cur row rest = scan Unquoted cur row rest.
Proof.
  intros Q E. destruct rest as [| c rest]; [reflexivity |].
  cbn [atFieldEnd] in E.
  destruct (c =? 34)%N eqn:C.
  - apply N.eqb_eq in C. subst c. discriminate.
  - destruct st; try contradiction; cbn [scan]; rewrite C; reflexivity.
Qed.

Lemma scan_plain (s : jsstring) :
  forallb isPlain s = true ->
  forall (st : State) (cur : jsstring) (row : list jsstring) (rest : jsstring),
  st = FieldStart \/ st = Unquoted -> atFieldEnd rest = true ->
  scan st cur row (s ++ rest) = scan Unquoted (cur ++ s) row rest.
Proof.
  induction s as [| c s IH]; intros P st cur row rest S E.
  - rewrite app_nil_r. apply scan_field_end; [| exact E].
    destruct S; subst st; discriminate.
  - cbn [forallb] in P. apply andb_prop in P as [C P].
    unfold isPlain in C. apply negb_true_iff in C.
    apply orb_false_elim in C as [C C10]. apply orb_false_elim in C as [C34 C44].
    replace (cur ++ c :: s) with ((cur ++ [c]) ++ s) by now rewrite <- app_assoc.
    rewrite <- (IH P Unquoted (cur ++ [c]) row rest (or_intror eq_refl) E).
    destruct S; subst st; cbn [scan app]; rewrite C34, C44, C10; reflexivity.
Qed.

Lemma scan_quoted (s : jsstring) (cur : jsstring) (row : list jsstring)
    (rest : jsstring) :
  scan Quoted cur row (doubleQuotes s ++ 34%N :: rest)
  = scan QuoteSeen (cur ++ s) row rest.
Proof.
  revert cur. induction s as [| c s IH]; intros cur.
  - rewrite app_nil_r. reflexivity.
  - replace (cur ++ c :: s) with ((cur ++ [c]) ++ s) by now rewrite <- app_assoc.
    rewrite <- IH. cbn [doubleQuotes].
    destruct (c =? 34)%N eqn:C.
    + apply N.eqb_eq in C. subst c. reflexivity.
    + cbn [scan app]. now rewrite C.
Qed.

End CsvFacts.

Section ExportFacts.
Context `{Host}.

(** A cell as [esc] writes it is read back as the text of the cell. *)
Lemma scan_esc (v : JsVal) (row : list jsstring) (rest : jsstring) :
  Csv.atFieldEnd rest = true ->
  Csv.scan Csv.FieldStart [] row (esc v ++ rest)
  = Csv.scan Csv.Unquoted (ToString (nullishOrEmpty v)) row rest.
Proof.
  intros E. unfold esc. cbv zeta.
  destruct (includes _ [34%N] || includes _ [44%N] || includes _ [10%N]) eqn:I.
  - change (([34%N] ++ doubleQuotes (ToString (nullishOrEmpty v)) ++ [34%N]) ++ rest)
      with (34%N :: (doubleQuotes (ToString (nullishOrEmpty v)) ++ [34%N]) ++ rest).
    rewrite <- app_assoc. cbn [Csv.scan app N.eqb Pos.eqb].
    change (34 =? 34)%N with true. cbv iota.
    rewrite CsvFacts.scan_quoted. cbn [app].
    apply CsvFacts.scan_field_end; [discriminate | exact E].
  - exact (CsvFacts.scan_plain _ (plain_text _ I) Csv.FieldStart [] row rest
             (or_introl eq_refl) E).
Qed.

End ExportFacts.

Lemma join_cons (sep a b : jsstring) (l : list jsstring) :
  join sep (a :: b :: l) = a ++ sep ++ join sep (b :: l).
Proof. cbn [join List.map concat]. now rewrite <- app_assoc. Qed.

Module CsvRecords.
Import Csv.

(** A record: its fields separated by commas, up to the end of the text or
    a line feed. *)
Lemma scan_record (fields : list (jsstring * jsstring)) :
  fields <> [] ->
  Forall (fun f => readsAs (fst f) (snd f)) fields ->
  forall (row : list jsstring) (rest : jsstring),
  scan FieldStart [] row (join [44%N] (List.map fst fields) ++ 10%N :: rest)
  = (row ++ List.map snd fields) :: scan FieldStart [] [] rest
  /\ scan FieldStart [] row (join [44%N] (List.map fst fields))
     = [row ++ List.map snd fields].
Proof.
  induction fields as [| f fields IH]; [contradiction |].
  intros _ G row rest. inversion G as [| f' fs' Gf Gs]; subst.
  destruct fields as [| g fields].
  - cbn [List.map join concat]. rewrite app_nil_r. split.
    + rewrite (Gf row (10%N :: rest) eq_refl). reflexivity.
    + rewrite <- (app_nil_r (fst f)), (Gf row [] eq_refl). reflexivity.
  - cbn [List.map]. rewrite join_cons.
    assert (N : g :: fields <> []) by discriminate.
    destruct (IH N Gs (row ++ [snd f]) rest) as [I1 I2].
    cbn [List.map] in I1, I2.
    split.
    + rewrite <- !app_assoc. cbn [app].
      rewrite (Gf row (44%N :: _) eq_refl). cbn [scan].
      change (44 =? 34)%N with false. change (44 =? 44)%N with true. cbv iota.
      rewrite I1. now rewrite <- app_assoc.
    + cbn [app]. rewrite (Gf row (44%N :: _) eq_refl). cbn [scan].
      change (44 =? 34)%N with false. change (44 =? 44)%N with true. cbv iota.
      rewrite I2. now rewrite <- app_assoc.
Qed.

(** A text of records separated by line feeds. *)
Lemma scan_records (records : list (list (jsstring * jsstring))) :
  records <> [] ->
  Forall (fun fields => fields <> []
                        /\ Forall (fun f => readsAs (fst f) (snd f)) fields)
         records ->
  parse (join [10%N] (List.map (fun fields => join [44%N] (List.map fst fields))
                        records))
  = List.map (List.map snd) records.
Proof.
  unfold parse. induction records as [| r records IH]; [contradiction |].
  intros _ G. inversion G as [| r' rs' [Nr Gr] Gs]; subst.
  destruct records as [| r2 records].
  - cbn [List.map join concat]. rewrite app_nil_r.
    exact (proj2 (scan_record r Nr Gr [] [])).
  - cbn [List.map]. rewrite join_cons. cbn [app].
    rewrite (proj1 (scan_record r Nr Gr [] _)). cbn [app]. f_equal.
    apply IH; [discriminate | exact Gs].
Qed.

Lemma readsAs_plain (s : jsstring) :
  forallb isPlain s = true -> readsAs s s.
Proof.
  intros P row rest E.
  exact (CsvFacts.scan_plain s P FieldStart [] row rest (or_introl eq_refl) E).
Qed.

End CsvRecords.

Section CsvRoundTrip.
Context `{Host}.

(** The text of [csvText] under the reader. *)
Lemma csvText_reads_back (first : RawRow) (others : list RawRow) :
  first <> [] ->
  Forall (fun h => includes h [34%N] || includes h [44%N] || includes h [10%N]
                   = false)
         (List.map fst first) ->
  option_map Csv.parse (csvText (first :: others))
  = Some (List.map fst first
          :: List.map
               (fun r => List.map (fun h => ToString (nullishOrEmpty (getProp h r)))
                           (List.map fst first))
               (first :: others)).
Proof.
  intros N P. unfold csvText. cbn [option_map]. f_equal.
  set (headers := List.map fst first) in *.
  set (rows := first :: others).
  pose (record := fun r : RawRow =>
          List.map (fun h => (esc (getProp h r),
                              ToString (nullishOrEmpty (getProp h r)))) headers).
  pose (records := List.map (fun h => (h, h)) headers :: List.map record rows).
  assert (E1 : join [44%N] headers
               :: List.map (fun r => join [44%N]
                                       (List.map (fun h => esc (getProp h r)) headers))
                    rows
               = List.map (fun fields => join [44%N] (List.map fst fields)) records).
  { unfold records. cbn [List.map]. f_equal.
    - f_equal. rewrite List.map_map. cbn [fst]. now rewrite List.map_id.
    - rewrite List.map_map. apply List.map_ext. intros r. f_equal.
      unfold record. rewrite List.map_map. reflexivity. }
  assert (E2 : headers
               :: List.map
                    (fun r => List.map
                                (fun h => ToString (nullishOrEmpty (getProp h r)))
                                headers)
                    rows
               = List.map (List.map snd) records).
  { unfold records. cbn [List.map]. f_equal.
    - rewrite List.map_map. cbn [snd]. now rewrite List.map_id.
    - rewrite List.map_map. apply List.map_ext. intros r.
      unfold record. rewrite List.map_map. reflexivity. }
  rewrite E1, E2. apply CsvRecords.scan_records; [discriminate |].
  assert (Hn : headers <> []).
  { unfold headers. destruct first; [contradiction | discriminate]. }
  constructor.
  - split.
    + destruct headers; [contradiction | discriminate].
    + apply Forall_forall. intros f Hf. apply list_elem_of_In in Hf.
      apply in_map_iff in Hf as (h & <- & Hh). cbn [fst snd].
      apply CsvRecords.readsAs_plain, plain_text.
      rewrite Forall_forall in P. apply P. now apply list_elem_of_In.
  - apply Forall_forall. intros fields Hf. apply list_elem_of_In in Hf.
    apply in_map_iff in Hf as (r & <- & _). split.
    + unfold record. destruct headers; [contradiction | discriminate].
    + apply Forall_forall. intros f Hf. apply list_elem_of_In in Hf.
      apply in_map_iff in Hf as (h & <- & _). cbn [fst snd].
      intros row rest E. now apply scan_esc.
Qed.

(** X18. The text [downloadCSV] writes is read back as what was written:
    a first record with the column names and then one record per row, each
    with the text of every cell, whatever quotes, commas and line feeds the
    cells hold.  The column names are written as they are, so this takes
    names free of quotes, commas and line feeds, and at least one column. *)
Theorem csvText_round_trip (first : RawRow) (others : list RawRow) :
  first <> [] ->
  Forall (fun h => includes h [34%N] || includes h [44%N] || includes h [10%N]
                   = false)
         (List.map fst first) ->
  option_map Csv.parse (csvText (first :: others))
  = Some (List.map fst first
          :: List.map
               (fun r => List.map (fun h => ToString (nullishOrEmpty (getProp h r)))
                           (List.map fst first))
               (first :: others)).
Proof. exact (csvText_reads_back first others). Qed.

Variable toLocaleDateString : option Z -> jsstring.

(** X19. The file [exportar] writes for a working set that is not empty is
    read back as the ten column names followed by one record per row, in
    the order of the rows, holding the texts of the ten values built for the
    row: nothing a client's name, note or any other cell contains can shift
    or split a column.  On an empty working set nothing is written. *)
Theorem exportCsv_round_trip (rows : list Row) :
  option_map Csv.parse (exportCsv toLocaleDateString rows)
  = match rows with
    | [] => None
    | _ =>
        Some (exportHeaders
              :: List.map
                   (fun r => List.map (fun v => ToString (nullishOrEmpty v))
                               (List.map snd (exportRow toLocaleDateString r)))
                   rows)
    end.
Proof.
  destruct rows as [| r rows]; [reflexivity |].
  unfold exportCsv.
  change (List.map (exportRow toLocaleDateString) (r :: rows))
    with (exportRow toLocaleDateString r
          :: List.map (exportRow toLocaleDateString) rows).
  rewrite csvText_reads_back.
  - f_equal. f_equal.
    change (exportRow toLocaleDateString r
            :: List.map (exportRow toLocaleDateString) rows)
      with (List.map (exportRow toLocaleDateString) (r :: rows)).
    rewrite List.map_map. apply List.map_ext. intros r'. reflexivity.
  - discriminate.
  - change (List.map fst (exportRow toLocaleDateString r)) with exportHeaders.
    unfold exportHeaders. repeat (constructor; [reflexivity |]). constructor.
Qed.

End CsvRoundTrip.

(** A name with a comma, a note with quotes, an empty cell and a line feed
    come back as they were. *)
Lemma csvText_round_trip_witness :
  let H := RefHost.brt in
  let quote := [34%N] in
  let first := [ (lit "Nome", VStr (lit "Silva, Ana"));
                 (lit "Obs", VStr (lit "disse " ++ quote ++ lit "ok" ++ quote)) ] in
  let second := [ (lit "Nome", VNull); (lit "Obs", VStr (lit "a" ++ [10%N] ++ lit "b")) ] in
  option_map Csv.parse (csvText [first; second])
  = Some [ [lit "Nome"; lit "Obs"];
           [lit "Silva, Ana"; lit "disse " ++ quote ++ lit "ok" ++ quote];
           [[]; lit "a" ++ [10%N] ++ lit "b"] ].
Proof.
  intros H quote first second.
  exact (csvText_round_trip first [second]
           ltac:(discriminate)
           ltac:(repeat (constructor; [reflexivity |]); constructor)).
Defined.
